(** * Bedrock knowledge-base REST backend: response normalisation and
      error mapping

    A shallow embedding of [backend/main.py] (the FastAPI endpoints) and of
    the [BedrockKnowledgeBaseClient] wrapper of [test.py] it imports.

    - Values decoded from JSON are Python objects of dynamic type: [pyval].
    - Python exceptions are results: [outcome]; the calls sent to the AWS
      service are collected next to the result: [M].
    - pydantic, boto3 and the clock are not part of the repository: the
      validators are taken as a parameter [Pydantic] constrained by
      [PydanticLaws], the service and the environment as a [World]. *)

From Stdlib Require Import ZArith List String Ascii Bool Lia Floats.
Import ListNotations.
Open Scope string_scope.
Open Scope Z_scope.
Set Warnings "-register-all".

(* ================================================================== *)
(** ** Python values and exceptions *)

(** What [json] decoding (and boto3) hands to the code. A [dict] keeps its
    items in insertion order; [lookup] returns the first binding of a key. *)
Inductive pyval : Type :=
| PNone
| PBool (b : bool)
| PInt (z : Z)
| PFloat (f : float)
| PStr (s : string)
| PList (l : list pyval)
| PDict (d : list (string * pyval)).

Definition dict : Type := list (string * pyval).

(** An exception other than [HTTPException]; [str(e)] is [exc_msg]. *)
Record pyexc : Type := { exc_class : string; exc_msg : string }.

Inductive outcome (A : Type) : Type :=
| Ok (a : A)
| Raise (e : pyexc).
Arguments Ok {A} a.
Arguments Raise {A} e.

Definition obind {A B} (o : outcome A) (k : A -> outcome B) : outcome B :=
  match o with
  | Ok a => k a
  | Raise e => Raise e
  end.

Notation "x <- o ;; k" := (obind o (fun x => k))
  (at level 61, o at next level, right associativity).

Fixpoint mapM {A B} (f : A -> outcome B) (l : list A) : outcome (list B) :=
  match l with
  | [] => Ok []
  | x :: xs => y <- f x ;; ys <- mapM f xs ;; Ok (y :: ys)
  end.

Definition type_name (v : pyval) : string :=
  match v with
  | PNone => "NoneType"
  | PBool _ => "bool"
  | PInt _ => "int"
  | PFloat _ => "float"
  | PStr _ => "str"
  | PList _ => "list"
  | PDict _ => "dict"
  end.

Definition AttributeError (v : pyval) (attr : string) : pyexc :=
  {| exc_class := "AttributeError";
     exc_msg := "'" ++ type_name v ++ "' object has no attribute '" ++ attr ++ "'" |}.

Definition TypeError_not_iterable (v : pyval) : pyexc :=
  {| exc_class := "TypeError";
     exc_msg := "'" ++ type_name v ++ "' object is not iterable" |}.

Fixpoint lookup (k : string) (d : dict) : option pyval :=
  match d with
  | [] => None
  | (k', v) :: d' => if String.eqb k k' then Some v else lookup k d'
  end.

(** [v.get(k, default)]: only a [dict] has the method. *)
Definition get (v : pyval) (k : string) (default : pyval) : outcome pyval :=
  match v with
  | PDict d => Ok (match lookup k d with Some x => x | None => default end)
  | _ => Raise (AttributeError v "get")
  end.

(** [for x in v]: a list yields its elements, a dict its keys, a string its
    characters; anything else is not iterable. *)
Definition iter (v : pyval) : outcome (list pyval) :=
  match v with
  | PList l => Ok l
  | PDict d => Ok (map (fun kv => PStr (fst kv)) d)
  | PStr s => Ok (map (fun c => PStr (String c EmptyString)) (list_ascii_of_string s))
  | _ => Raise (TypeError_not_iterable v)
  end.

(** Truth value of an object, as [if v] and [v and ...] test it. *)
Definition truthy (v : pyval) : bool :=
  match v with
  | PNone => false
  | PBool b => b
  | PInt z => negb (z =? 0)
  | PFloat f => negb (PrimFloat.eqb f 0%float)
  | PStr s => negb (String.eqb s "")
  | PList l => match l with [] => false | _ => true end
  | PDict d => match d with [] => false | _ => true end
  end.

(** [v == 'literal']. *)
Definition eq_str (v : pyval) (s : string) : bool :=
  match v with
  | PStr t => String.eqb t s
  | _ => false
  end.

(** [a or b] for an [Optional[str]] on the left and a [str] on the right. *)
Definition or_str (a : option string) (b : string) : string :=
  match a with
  | Some s => if String.eqb s "" then b else s
  | None => b
  end.

(** [sep in s] for a one-character [sep]. *)
Fixpoint contains (sep : ascii) (s : string) : bool :=
  match s with
  | EmptyString => false
  | String c s' => Ascii.eqb c sep || contains sep s'
  end.

(** [s.split(sep)] for a one-character [sep]. *)
Fixpoint split (sep : ascii) (s : string) : list string :=
  match s with
  | EmptyString => [EmptyString]
  | String c s' =>
      if Ascii.eqb c sep then EmptyString :: split sep s'
      else match split sep s' with
           | [] => [String c EmptyString]
           | p :: ps => String c p :: ps
           end
  end.

(** [l[-1]] on the (never empty) list [split] returns. *)
Definition last_item (l : list string) : string := last l EmptyString.

(* ================================================================== *)
(** ** The AWS service, the environment and the call trace *)

Inductive call : Type :=
| Retrieve (knowledgeBaseId text : string) (numberOfResults : Z)
| RetrieveAndGenerate (knowledgeBaseId text modelArn : string) (numberOfResults : Z)
| ListKnowledgeBases.

Record World : Type := {
  (** [boto3.client(service, region_name=...)] *)
  boto3_client : string -> string -> outcome unit;
  (** the answer of the service to an API call, or the exception boto3 raises *)
  aws : call -> outcome pyval;
  (** [datetime.utcnow().isoformat()] *)
  utcnow : string;
  (** [os.environ] *)
  environ : string -> option string
}.

(** A computation that may call the service: the calls it sent, in order,
    and how it ended. *)
Definition M (A : Type) : Type := (list call * outcome A)%type.

Definition ret {A} (a : A) : M A := ([], Ok a).

Definition lift {A} (o : outcome A) : M A := ([], o).

Definition bind {A B} (m : M A) (k : A -> M B) : M B :=
  match m with
  | (t, Ok a) => let (t', r) := k a in ((t ++ t')%list, r)
  | (t, Raise e) => (t, Raise e)
  end.

Notation "x <~ m ;; k" := (bind m (fun x => k))
  (at level 61, m at next level, right associativity).

(** [try: m  except Exception as e: h e] *)
Definition try_except {A} (m : M A) (h : pyexc -> M A) : M A :=
  match m with
  | (t, Ok a) => (t, Ok a)
  | (t, Raise e) => let (t', r) := h e in ((t ++ t')%list, r)
  end.

Definition invoke (w : World) (c : call) : M pyval := ([c], aws w c).

(** What FastAPI sends back: the response model, an [HTTPException] raised
    by the handler, or the 422 it answers itself when the body does not
    validate (the handler is then not entered). *)
Inductive http (A : Type) : Type :=
| Respond (body : A)
| HTTPException (status_code : Z) (detail : string)
| Unprocessable.
Arguments Respond {A} body.
Arguments HTTPException {A} status_code detail.
Arguments Unprocessable {A}.

(** The handlers' [try: ... except Exception as e: raise HTTPException(...)]. *)
Definition guarded {A} (m : M A) (h : pyexc -> http A) : list call * http A :=
  match m with
  | (t, Ok a) => (t, Respond a)
  | (t, Raise e) => (t, h e)
  end.

(* ================================================================== *)
(** ** pydantic: the validators the models rely on *)

(** The field validators of the installed pydantic, and the exception a
    model raises when a field does not validate. Which foreign values a
    validator coerces differs between releases; [PydanticLaws] fixes only
    what all of them do: a value of the annotated type is kept as it is. *)
Record Pydantic : Type := {
  pydantic_str : pyval -> option string;
  pydantic_int : pyval -> option Z;
  pydantic_float : pyval -> option float;
  pydantic_dict : pyval -> option dict;
  ValidationError : string -> pyexc
}.

Record PydanticLaws (P : Pydantic) : Prop := {
  str_kept : forall s, pydantic_str P (PStr s) = Some s;
  int_kept : forall z, pydantic_int P (PInt z) = Some z;
  float_kept : forall f, pydantic_float P (PFloat f) = Some f;
  dict_kept : forall d, pydantic_dict P (PDict d) = Some d
}.

(** [Optional[str]]: [None] is accepted as such. *)
Definition pydantic_optional_str (P : Pydantic) (v : pyval) : option (option string) :=
  match v with
  | PNone => Some None
  | _ => option_map Some (pydantic_str P v)
  end.

(** A validator that accepts exactly the annotated type. *)
Definition strict : Pydantic := {|
  pydantic_str := fun v => match v with PStr s => Some s | _ => None end;
  pydantic_int := fun v => match v with PInt z => Some z | _ => None end;
  pydantic_float := fun v => match v with PFloat f => Some f | _ => None end;
  pydantic_dict := fun v => match v with PDict d => Some d | _ => None end;
  ValidationError := fun model =>
    {| exc_class := "ValidationError";
       exc_msg := "validation error for " ++ model |}
|}.

(* ================================================================== *)
(** ** The models of [main.py] *)

Module SearchRequest.
Record t : Type := {
  query : string;
  max_results : Z;
  knowledge_base_id : option string
}.
End SearchRequest.

Module SummarizeRequest.
Record t : Type := {
  query : string;
  max_results : Z;
  knowledge_base_id : option string;
  model_arn : option string
}.
End SummarizeRequest.

Module SearchResult.
Record t : Type := {
  content : string;
  score : float;
  source_type : string;
  source_location : option string;
  metadata : dict
}.
End SearchResult.

Module SearchResponse.
Record t : Type := {
  query : string;
  results : list SearchResult.t;
  total_results : Z;
  knowledge_base_id : string;
  timestamp : string
}.
End SearchResponse.

Module Citation.
Record t : Type := {
  content : string;
  source_location : option string;
  metadata : dict
}.
End Citation.

Module SummarizeResponse.
Record t : Type := {
  query : string;
  generated_response : string;
  citations : list Citation.t;
  knowledge_base_id : string;
  model_used : string;
  timestamp : string
}.
End SummarizeResponse.

Module HealthResponse.
Record t : Type := {
  status : string;
  timestamp : string;
  aws_region : string;
  knowledge_base_id : string;
  bedrock_available : bool
}.
End HealthResponse.

Module KnowledgeBaseInfo.
Record t : Type := {
  knowledge_base_id : string;
  name : string;
  description : option string;
  status : string
}.
End KnowledgeBaseInfo.

(** [len(s)]: one element of the string per character. *)
Definition len (s : string) : Z := Z.of_nat (String.length s).

(** [Field(..., min_length=lo, max_length=hi)] on a required [str]. *)
Definition str_field (P : Pydantic) (lo hi : Z) (v : option pyval) : option string :=
  match v with
  | None => None
  | Some x =>
      match pydantic_str P x with
      | Some s => if (lo <=? len s) && (len s <=? hi) then Some s else None
      | None => None
      end
  end.

(** [Field(default=dflt, ge=lo, le=hi)] on an [int]. *)
Definition int_field (P : Pydantic) (dflt lo hi : Z) (v : option pyval) : option Z :=
  match v with
  | None => Some dflt
  | Some x =>
      match pydantic_int P x with
      | Some n => if (lo <=? n) && (n <=? hi) then Some n else None
      | None => None
      end
  end.

(** [Optional[str] = Field(default=None)] *)
Definition optional_str_field (P : Pydantic) (v : option pyval) : option (option string) :=
  match v with
  | None => Some None
  | Some x => pydantic_optional_str P x
  end.

(** Validation of the JSON body of [POST /search] against [SearchRequest]. *)
Definition SearchRequest_validate (P : Pydantic) (body : pyval) : option SearchRequest.t :=
  match body with
  | PDict d =>
      match str_field P 1 1000 (lookup "query" d),
            int_field P 5 1 20 (lookup "max_results" d),
            optional_str_field P (lookup "knowledge_base_id" d) with
      | Some q, Some n, Some kb =>
          Some {| SearchRequest.query := q;
                  SearchRequest.max_results := n;
                  SearchRequest.knowledge_base_id := kb |}
      | _, _, _ => None
      end
  | _ => None
  end.

(** Validation of the JSON body of [POST /summarize] against [SummarizeRequest]. *)
Definition SummarizeRequest_validate (P : Pydantic) (body : pyval) : option SummarizeRequest.t :=
  match body with
  | PDict d =>
      match str_field P 1 1000 (lookup "query" d),
            int_field P 5 1 10 (lookup "max_results" d),
            optional_str_field P (lookup "knowledge_base_id" d),
            optional_str_field P (lookup "model_arn" d) with
      | Some q, Some n, Some kb, Some arn =>
          Some {| SummarizeRequest.query := q;
                  SummarizeRequest.max_results := n;
                  SummarizeRequest.knowledge_base_id := kb;
                  SummarizeRequest.model_arn := arn |}
      | _, _, _, _ => None
      end
  | _ => None
  end.

(** [SearchResult(content=..., score=..., source_type=..., source_location=...,
    metadata=...)] *)
Definition SearchResult_init (P : Pydantic)
    (content score source_type source_location metadata : pyval)
  : outcome SearchResult.t :=
  match pydantic_str P content, pydantic_float P score, pydantic_str P source_type,
        pydantic_optional_str P source_location, pydantic_dict P metadata with
  | Some c, Some s, Some t, Some l, Some m =>
      Ok {| SearchResult.content := c;
            SearchResult.score := s;
            SearchResult.source_type := t;
            SearchResult.source_location := l;
            SearchResult.metadata := m |}
  | _, _, _, _, _ => Raise (ValidationError P "SearchResult")
  end.

(** [Citation(content=..., source_location=..., metadata=...)] *)
Definition Citation_init (P : Pydantic) (content source_location metadata : pyval)
  : outcome Citation.t :=
  match pydantic_str P content, pydantic_optional_str P source_location,
        pydantic_dict P metadata with
  | Some c, Some l, Some m =>
      Ok {| Citation.content := c;
            Citation.source_location := l;
            Citation.metadata := m |}
  | _, _, _ => Raise (ValidationError P "Citation")
  end.

(** [SummarizeResponse(..., generated_response=generated_text, ...)]: the one
    field that comes from the service untyped. *)
Definition SummarizeResponse_init (P : Pydantic) (query : string) (generated_text : pyval)
    (citations : list Citation.t) (kb_id model_used timestamp : string)
  : outcome SummarizeResponse.t :=
  match pydantic_str P generated_text with
  | Some g =>
      Ok {| SummarizeResponse.query := query;
            SummarizeResponse.generated_response := g;
            SummarizeResponse.citations := citations;
            SummarizeResponse.knowledge_base_id := kb_id;
            SummarizeResponse.model_used := model_used;
            SummarizeResponse.timestamp := timestamp |}
  | None => Raise (ValidationError P "SummarizeResponse")
  end.

(** [KnowledgeBaseInfo(knowledge_base_id=..., name=..., description=...,
    status=...)] *)
Definition KnowledgeBaseInfo_init (P : Pydantic)
    (knowledge_base_id name description status : pyval)
  : outcome KnowledgeBaseInfo.t :=
  match pydantic_str P knowledge_base_id, pydantic_str P name,
        pydantic_optional_str P description, pydantic_str P status with
  | Some i, Some n, Some d, Some s =>
      Ok {| KnowledgeBaseInfo.knowledge_base_id := i;
            KnowledgeBaseInfo.name := n;
            KnowledgeBaseInfo.description := d;
            KnowledgeBaseInfo.status := s |}
  | _, _, _, _ => Raise (ValidationError P "KnowledgeBaseInfo")
  end.

(* ================================================================== *)
(** ** [test.py]: the client wrapper *)

Record BedrockKnowledgeBaseClient : Type := { region_name : string }.

(** Module state of [main.py] once it is imported. *)
Record Config : Type := {
  AWS_REGION : string;
  KNOWLEDGE_BASE_ID : string;
  MODEL_ARN : string;
  bedrock_client : option BedrockKnowledgeBaseClient
}.

Definition placeholder : string := "YOUR_KNOWLEDGE_BASE_ID_HERE".

Section Backend.

Variable P : Pydantic.
Variable w : World.

(** [BedrockKnowledgeBaseClient.__init__] *)
Definition BedrockKnowledgeBaseClient_init (region : string)
  : outcome BedrockKnowledgeBaseClient :=
  _ <- boto3_client w "bedrock-agent-runtime" region ;;
  _ <- boto3_client w "bedrock-agent" region ;;
  Ok {| region_name := region |}.

(** [BedrockKnowledgeBaseClient.list_knowledge_bases] *)
Definition client_list_knowledge_bases (self : BedrockKnowledgeBaseClient) : M pyval :=
  try_except
    (response <~ invoke w ListKnowledgeBases ;;
     lift (get response "knowledgeBaseSummaries" (PList [])))
    (fun e => ret (PList [])).

(** [BedrockKnowledgeBaseClient.query_knowledge_base], [next_token] left at
    its default [None]. *)
Definition query_knowledge_base (self : BedrockKnowledgeBaseClient)
    (knowledge_base_id query : string) (max_results : Z) : M pyval :=
  try_except
    (response <~ invoke w (Retrieve knowledge_base_id query max_results) ;;
     ret response)
    (fun e => ret (PDict [])).

(** [BedrockKnowledgeBaseClient.retrieve_and_generate] *)
Definition retrieve_and_generate (self : BedrockKnowledgeBaseClient)
    (knowledge_base_id query model_arn : string) (max_results : Z) : M pyval :=
  try_except
    (response <~ invoke w
       (RetrieveAndGenerate knowledge_base_id query model_arn max_results) ;;
     ret response)
    (fun e => ret (PDict [])).

(* ================================================================== *)
(** ** [main.py]: start-up *)

(** [os.getenv(k, default)] *)
Definition getenv (k default : string) : string :=
  match environ w k with
  | Some v => v
  | None => default
  end.

(** The module body: configuration, then the client, [None] when its
    construction raises. *)
Definition startup : Config :=
  let region := getenv "AWS_REGION" "us-west-2" in
  {| AWS_REGION := region;
     KNOWLEDGE_BASE_ID := getenv "KNOWLEDGE_BASE_ID" "DFVMT0Y6LF";
     MODEL_ARN :=
       getenv "MODEL_ARN"
         ("arn:aws:bedrock:" ++ region
            ++ "::foundation-model/anthropic.claude-3-sonnet-20240229-v1:0");
     bedrock_client :=
       match BedrockKnowledgeBaseClient_init region with
       | Ok c => Some c
       | Raise _ => None
       end |}.

(* ================================================================== *)
(** ** [main.py]: the endpoints *)

(** [GET /health] *)
Definition health_check (cfg : Config) : list call * http HealthResponse.t :=
  ([], Respond
         {| HealthResponse.status := "healthy";
            HealthResponse.timestamp := utcnow w;
            HealthResponse.aws_region := AWS_REGION cfg;
            HealthResponse.knowledge_base_id := KNOWLEDGE_BASE_ID cfg;
            HealthResponse.bedrock_available :=
              match bedrock_client cfg with Some _ => true | None => false end |}).

(** Body of the loop of [list_knowledge_bases]. *)
Definition parse_kb (kb : pyval) : outcome KnowledgeBaseInfo.t :=
  i <- get kb "knowledgeBaseId" (PStr "") ;;
  n <- get kb "name" (PStr "Unnamed") ;;
  d <- get kb "description" PNone ;;
  s <- get kb "status" (PStr "Unknown") ;;
  KnowledgeBaseInfo_init P i n d s.

(** [GET /knowledge-bases] *)
Definition list_knowledge_bases (cfg : Config)
  : list call * http (list KnowledgeBaseInfo.t) :=
  match bedrock_client cfg with
  | None => ([], HTTPException 503 "Bedrock client not available")
  | Some client =>
      guarded
        (knowledge_bases <~ client_list_knowledge_bases client ;;
         lift (kbs <- iter knowledge_bases ;; mapM parse_kb kbs))
        (fun e => HTTPException 500 ("Failed to list knowledge bases: " ++ exc_msg e))
  end.

(** Body of the loop of [search_knowledge_base]. *)
Definition parse_result (result : pyval) : outcome SearchResult.t :=
  c <- get result "content" (PDict []) ;;
  content <- get c "text" (PStr "No content available") ;;
  score <- get result "score" (PFloat 0%float) ;;
  location <- get result "location" (PDict []) ;;
  source_type <- get location "type" (PStr "Unknown") ;;
  source_location <-
    (if eq_str source_type "S3" then
       s3_location <- get location "s3Location" (PDict []) ;;
       get s3_location "uri" (PStr "Unknown S3 location")
     else Ok PNone) ;;
  metadata <- get result "metadata" (PDict []) ;;
  SearchResult_init P content score source_type source_location metadata.

(** The [try] block of [search_knowledge_base] after the call. *)
Definition parse_search (request : SearchRequest.t) (kb_id : string) (results : pyval)
  : outcome SearchResponse.t :=
  retrieval_results <- get results "retrievalResults" (PList []) ;;
  items <- iter retrieval_results ;;
  search_results <- mapM parse_result items ;;
  Ok {| SearchResponse.query := SearchRequest.query request;
        SearchResponse.results := search_results;
        SearchResponse.total_results := Z.of_nat (List.length search_results);
        SearchResponse.knowledge_base_id := kb_id;
        SearchResponse.timestamp := utcnow w |}.

(** [kb_id = request.knowledge_base_id or KNOWLEDGE_BASE_ID] *)
Definition effective_kb_id (cfg : Config) (override : option string) : string :=
  or_str override (KNOWLEDGE_BASE_ID cfg).

(** [not kb_id or kb_id == 'YOUR_KNOWLEDGE_BASE_ID_HERE'] *)
Definition not_configured (kb_id : string) : bool :=
  negb (truthy (PStr kb_id)) || String.eqb kb_id placeholder.

(** [POST /search], on a validated request. *)
Definition search_knowledge_base (cfg : Config) (request : SearchRequest.t)
  : list call * http SearchResponse.t :=
  match bedrock_client cfg with
  | None => ([], HTTPException 503 "Bedrock client not available")
  | Some client =>
      let kb_id := effective_kb_id cfg (SearchRequest.knowledge_base_id request) in
      if not_configured kb_id then
        ([], HTTPException 400 "Knowledge base ID not configured")
      else
        guarded
          (results <~ query_knowledge_base client kb_id
                        (SearchRequest.query request)
                        (SearchRequest.max_results request) ;;
           lift (parse_search request kb_id results))
          (fun e => HTTPException 500 ("Search failed: " ++ exc_msg e))
  end.

(** Body of the inner loop of [summarize_with_knowledge_base]. *)
Definition parse_reference (ref : pyval) : outcome Citation.t :=
  c <- get ref "content" (PDict []) ;;
  content <- get c "text" (PStr "No content") ;;
  location <- get ref "location" (PDict []) ;;
  source_location <-
    (if truthy location then
       t <- get location "type" PNone ;;
       if eq_str t "S3" then
         s3_location <- get location "s3Location" (PDict []) ;;
         get s3_location "uri" (PStr "Unknown S3 location")
       else Ok PNone
     else Ok PNone) ;;
  metadata <- get ref "metadata" (PDict []) ;;
  Citation_init P content source_location metadata.

(** Body of the outer loop: the citations one group appends. *)
Definition parse_citation (citation : pyval) : outcome (list Citation.t) :=
  references <- get citation "retrievedReferences" (PList []) ;;
  refs <- iter references ;;
  mapM parse_reference refs.

(** [model_arn.split('/')[-1] if '/' in model_arn else model_arn] *)
Definition short_model_name (model_arn : string) : string :=
  if contains "/"%char model_arn then last_item (split "/"%char model_arn)
  else model_arn.

(** The [try] block of [summarize_with_knowledge_base] after the call. *)
Definition parse_summary (request : SummarizeRequest.t) (kb_id model_arn : string)
    (response : pyval) : outcome SummarizeResponse.t :=
  output <- get response "output" (PDict []) ;;
  generated_text <- get output "text" (PStr "No response generated") ;;
  citation_data <- get response "citations" (PList []) ;;
  groups <- iter citation_data ;;
  citations <- mapM parse_citation groups ;;
  SummarizeResponse_init P (SummarizeRequest.query request) generated_text
    (List.concat citations) kb_id (short_model_name model_arn) (utcnow w).

(** [POST /summarize], on a validated request. *)
Definition summarize_with_knowledge_base (cfg : Config) (request : SummarizeRequest.t)
  : list call * http SummarizeResponse.t :=
  match bedrock_client cfg with
  | None => ([], HTTPException 503 "Bedrock client not available")
  | Some client =>
      let kb_id := effective_kb_id cfg (SummarizeRequest.knowledge_base_id request) in
      let model_arn := or_str (SummarizeRequest.model_arn request) (MODEL_ARN cfg) in
      if not_configured kb_id then
        ([], HTTPException 400 "Knowledge base ID not configured")
      else
        guarded
          (response <~ retrieve_and_generate client kb_id
                         (SummarizeRequest.query request) model_arn
                         (SummarizeRequest.max_results request) ;;
           lift (parse_summary request kb_id model_arn response))
          (fun e => HTTPException 500 ("Summarization failed: " ++ exc_msg e))
  end.

(** The routes as FastAPI serves them: the body is validated against the
    request model before the handler runs. *)
Definition post_search (cfg : Config) (body : pyval) : list call * http SearchResponse.t :=
  match SearchRequest_validate P body with
  | Some request => search_knowledge_base cfg request
  | None => ([], Unprocessable)
  end.

Definition post_summarize (cfg : Config) (body : pyval)
  : list call * http SummarizeResponse.t :=
  match SummarizeRequest_validate P body with
  | Some request => summarize_with_knowledge_base cfg request
  | None => ([], Unprocessable)
  end.

End Backend.

(* ================================================================== *)
(** ** Shapes of the upstream responses *)

(** The documents the service returns, with every field optional: a field
    is absent or has the type the service gives it. *)

Definition is_str (v : pyval) : bool :=
  match v with PStr _ => true | _ => false end.

Definition is_float (v : pyval) : bool :=
  match v with PFloat _ => true | _ => false end.

Definition is_dict (v : pyval) : bool :=
  match v with PDict _ => true | _ => false end.

Definition optional (d : dict) (k : string) (p : pyval -> bool) : bool :=
  match lookup k d with
  | Some v => p v
  | None => true
  end.

Definition dict_with (p : dict -> bool) (v : pyval) : bool :=
  match v with PDict d => p d | _ => false end.

Definition list_of (p : pyval -> bool) (v : pyval) : bool :=
  match v with PList l => forallb p l | _ => false end.

Definition content_shape : pyval -> bool :=
  dict_with (fun d => optional d "text" is_str).

Definition s3_location_shape : pyval -> bool :=
  dict_with (fun d => optional d "uri" is_str).

Definition location_shape : pyval -> bool :=
  dict_with (fun d =>
    optional d "type" is_str && optional d "s3Location" s3_location_shape).

Definition retrieval_result_shape : pyval -> bool :=
  dict_with (fun d =>
    optional d "content" content_shape
    && optional d "score" is_float
    && optional d "location" location_shape
    && optional d "metadata" is_dict).

Definition retrieve_response_shape : pyval -> bool :=
  dict_with (fun d => optional d "retrievalResults" (list_of retrieval_result_shape)).

Definition reference_shape : pyval -> bool :=
  dict_with (fun d =>
    optional d "content" content_shape
    && optional d "location" location_shape
    && optional d "metadata" is_dict).

Definition citation_shape : pyval -> bool :=
  dict_with (fun d => optional d "retrievedReferences" (list_of reference_shape)).

Definition generate_response_shape : pyval -> bool :=
  dict_with (fun d =>
    optional d "output" (dict_with (fun o => optional o "text" is_str))
    && optional d "citations" (list_of citation_shape)).

(** The nested field reached by following [ks], when every level is there. *)
Fixpoint path (v : pyval) (ks : list string) : option pyval :=
  match ks with
  | [] => Some v
  | k :: ks' =>
      match v with
      | PDict d =>
          match lookup k d with
          | Some x => path x ks'
          | None => None
          end
      | _ => None
      end
  end.

Definition str_at (v : pyval) (ks : list string) (default : string) : string :=
  match path v ks with Some (PStr s) => s | _ => default end.

Definition float_at (v : pyval) (ks : list string) (default : float) : float :=
  match path v ks with Some (PFloat f) => f | _ => default end.

Definition dict_at (v : pyval) (ks : list string) : dict :=
  match path v ks with Some (PDict d) => d | _ => [] end.

Definition list_at (v : pyval) (ks : list string) : list pyval :=
  match path v ks with Some (PList l) => l | _ => [] end.

(** The records of a retrieval response, in the order of the response. *)
Definition retrieval_records (response : pyval) : list pyval :=
  list_at response ["retrievalResults"].

(** Every retrieved reference of a retrieve-and-generate response, group
    after group, in the order encountered. *)
Definition retrieved_references (response : pyval) : list pyval :=
  flat_map (fun group => list_at group ["retrievedReferences"])
           (list_at response ["citations"]).

(** The normalised record as the specification words it: every field with
    its documented default. *)
Definition normalized_result (r : pyval) : SearchResult.t :=
  let kind := str_at r ["location"; "type"] "Unknown" in
  {| SearchResult.content := str_at r ["content"; "text"] "No content available";
     SearchResult.score := float_at r ["score"] 0%float;
     SearchResult.source_type := kind;
     SearchResult.source_location :=
       if String.eqb kind "S3"
       then Some (str_at r ["location"; "s3Location"; "uri"] "Unknown S3 location")
       else None;
     SearchResult.metadata := dict_at r ["metadata"] |}.

(** The normalised citation as the specification words it. *)
Definition normalized_citation (r : pyval) : Citation.t :=
  {| Citation.content := str_at r ["content"; "text"] "No content";
     Citation.source_location :=
       if String.eqb (str_at r ["location"; "type"] "") "S3"
       then Some (str_at r ["location"; "s3Location"; "uri"] "Unknown S3 location")
       else None;
     Citation.metadata := dict_at r ["metadata"] |}.

(* ================================================================== *)
(** ** Sample data *)

Definition sample_exc : pyexc :=
  {| exc_class := "ClientError";
     exc_msg := "An error occurred (AccessDeniedException) when calling the Retrieve operation" |}.

Definition s3_record : pyval :=
  PDict [("content", PDict [("text", PStr "alpha")]);
         ("score", PFloat 0.75%float);
         ("location", PDict [("type", PStr "S3");
                             ("s3Location", PDict [("uri", PStr "s3://bucket/key")])]);
         ("metadata", PDict [("page", PInt 3)])].

Definition bare_record : pyval :=
  PDict [("content", PDict [("text", PStr "beta")]); ("score", PFloat 0.5%float)].

Definition web_record : pyval :=
  PDict [("location", PDict [("type", PStr "WEB")])].

Definition two_records : pyval :=
  PDict [("retrievalResults", PList [s3_record; bare_record])].

Definition ref_one : pyval :=
  PDict [("content", PDict [("text", PStr "first")]);
         ("location", PDict [("type", PStr "S3");
                             ("s3Location", PDict [("uri", PStr "s3://bucket/one")])])].

Definition ref_two : pyval :=
  PDict [("content", PDict [("text", PStr "second")])].

Definition one_group : pyval :=
  PDict [("output", PDict [("text", PStr "generated")]);
         ("citations", PList [PDict [("retrievedReferences", PList [ref_one; ref_two])]])].

(** A service that answers every call. *)
Definition healthy_world : World :=
  {| boto3_client := fun _ _ => Ok tt;
     aws := fun c =>
       match c with
       | Retrieve _ _ _ => Ok two_records
       | RetrieveAndGenerate _ _ _ _ => Ok one_group
       | ListKnowledgeBases => Ok (PDict [("knowledgeBaseSummaries", PList [])])
       end;
     utcnow := "2024-01-01T00:00:00";
     environ := fun _ => None |}.

(** A service on which every call raises. *)
Definition failing_world : World :=
  {| boto3_client := fun _ _ => Ok tt;
     aws := fun _ => Raise sample_exc;
     utcnow := "2024-01-01T00:00:00";
     environ := fun _ => None |}.

(** No client could be constructed and the identifier is the placeholder. *)
Definition unavailable_world : World :=
  {| boto3_client := fun _ _ => Raise sample_exc;
     aws := fun _ => Raise sample_exc;
     utcnow := "2024-01-01T00:00:00";
     environ := fun k =>
       if String.eqb k "KNOWLEDGE_BASE_ID" then Some placeholder else None |}.

(** A service whose retrieval answer has a string where the content
    document should be. *)
Definition malformed_world : World :=
  {| boto3_client := fun _ _ => Ok tt;
     aws := fun _ =>
       Ok (PDict [("retrievalResults", PList [PDict [("content", PStr "x")]])]);
     utcnow := "2024-01-01T00:00:00";
     environ := fun _ => None |}.

(** The client is there but the identifier was left at the placeholder. *)
Definition placeholder_world : World :=
  {| boto3_client := fun _ _ => Ok tt;
     aws := fun _ => Ok (PDict []);
     utcnow := "2024-01-01T00:00:00";
     environ := fun k =>
       if String.eqb k "KNOWLEDGE_BASE_ID" then Some placeholder else None |}.

(** Responses with every optional field left out somewhere. *)
Definition sparse_retrieval : pyval :=
  PDict [("retrievalResults",
          PList [PDict [];
                 PDict [("content", PDict []); ("location", PDict [])];
                 PDict [("location", PDict [("type", PStr "S3")])]])].

Definition sparse_generation : pyval :=
  PDict [("citations",
          PList [PDict [];
                 PDict [("retrievedReferences",
                         PList [PDict [];
                                PDict [("location", PDict [("type", PStr "S3")])]])]])].

Definition sample_search : SearchRequest.t :=
  {| SearchRequest.query := "what is this";
     SearchRequest.max_results := 5;
     SearchRequest.knowledge_base_id := None |}.

Definition sample_summarize : SummarizeRequest.t :=
  {| SummarizeRequest.query := "what is this";
     SummarizeRequest.max_results := 5;
     SummarizeRequest.knowledge_base_id := None;
     SummarizeRequest.model_arn := None |}.

(* ================================================================== *)
(** ** [GET /knowledge-bases/{knowledge_base_id}] *)

Section KnowledgeBaseInfoRoute.

(** [self.bedrock_agent.get_knowledge_base(knowledgeBaseId=...)]: the answer
    of the service, or the exception boto3 raises. *)
Variable get_knowledge_base : string -> outcome pyval.

(** [BedrockKnowledgeBaseClient.get_knowledge_base_info]; next to the
    result, the identifiers it asked the service for. *)
Definition client_get_knowledge_base_info (self : BedrockKnowledgeBaseClient)
    (knowledge_base_id : string) : list string * outcome pyval :=
  ([knowledge_base_id],
   match (response <- get_knowledge_base knowledge_base_id ;;
          get response "knowledgeBase" PNone) with
   | Ok kb => Ok kb
   | Raise _ => Ok PNone
   end).

(** The dict the handler returns, its items in the order of the literal.
    The values are those of [kb_info], untouched. *)
Definition kb_info_document (knowledge_base_id : string) (kb_info : pyval)
  : outcome pyval :=
  name <- get kb_info "name" (PStr "Unknown") ;;
  description <- get kb_info "description" (PStr "No description") ;;
  status <- get kb_info "status" (PStr "Unknown") ;;
  created_at <- get kb_info "createdAt" PNone ;;
  updated_at <- get kb_info "updatedAt" PNone ;;
  role_arn <- get kb_info "roleArn" PNone ;;
  configuration <- get kb_info "knowledgeBaseConfiguration" (PDict []) ;;
  Ok (PDict [("knowledge_base_id", PStr knowledge_base_id);
             ("name", name);
             ("description", description);
             ("status", status);
             ("created_at", created_at);
             ("updated_at", updated_at);
             ("role_arn", role_arn);
             ("knowledge_base_configuration", configuration)]).

(** [get_knowledge_base_info]: the [HTTPException] raised inside the [try]
    is re-raised as it is, any other exception becomes a 500. *)
Definition get_knowledge_base_info (cfg : Config) (knowledge_base_id : string)
  : list string * http pyval :=
  match bedrock_client cfg with
  | None => ([], HTTPException 503 "Bedrock client not available")
  | Some client =>
      match client_get_knowledge_base_info client knowledge_base_id with
      | (t, Ok kb_info) =>
          if negb (truthy kb_info) then
            (t, HTTPException 404 "Knowledge base not found")
          else
            match kb_info_document knowledge_base_id kb_info with
            | Ok document => (t, Respond document)
            | Raise e =>
                (t, HTTPException 500
                      ("Failed to get knowledge base info: " ++ exc_msg e))
            end
      | (t, Raise e) =>
          (t, HTTPException 500 ("Failed to get knowledge base info: " ++ exc_msg e))
      end
  end.

End KnowledgeBaseInfoRoute.

(* ================================================================== *)
(** ** Shape of the list of knowledge bases *)

Definition summary_shape : pyval -> bool :=
  dict_with (fun d =>
    optional d "knowledgeBaseId" is_str
    && optional d "name" is_str
    && optional d "description" is_str
    && optional d "status" is_str).

Definition list_response_shape : pyval -> bool :=
  dict_with (fun d => optional d "knowledgeBaseSummaries" (list_of summary_shape)).

(** The entry [GET /knowledge-bases] makes of one summary. *)
Definition normalized_kb (kb : pyval) : KnowledgeBaseInfo.t :=
  {| KnowledgeBaseInfo.knowledge_base_id := str_at kb ["knowledgeBaseId"] "";
     KnowledgeBaseInfo.name := str_at kb ["name"] "Unnamed";
     KnowledgeBaseInfo.description :=
       match path kb ["description"] with
       | Some (PStr s) => Some s
       | _ => None
       end;
     KnowledgeBaseInfo.status := str_at kb ["status"] "Unknown" |}.

(** The value [d.get(k, default)] returns on a dict of items [d]. *)
Definition get_or (d : dict) (k : string) (default : pyval) : pyval :=
  match lookup k d with
  | Some v => v
  | None => default
  end.

(** What the wrapper hands to the handler: the answer of the service, or
    the empty dict it returns when the call raised. *)
Definition answer_or_empty (o : outcome pyval) : pyval :=
  match o with
  | Ok j => j
  | Raise _ => PDict []
  end.

(** The one call [POST /search] may send: a retrieval within the bounds of
    [SearchRequest], for a configured knowledge base. *)
Definition search_call (c : call) : Prop :=
  match c with
  | Retrieve kb q n =>
      1 <= len q <= 1000 /\ 1 <= n <= 20 /\ kb <> "" /\ kb <> placeholder
  | _ => False
  end.

(** The one call [POST /summarize] may send. *)
Definition summarize_call (c : call) : Prop :=
  match c with
  | RetrieveAndGenerate kb q arn n =>
      1 <= len q <= 1000 /\ 1 <= n <= 10 /\ kb <> "" /\ kb <> placeholder
  | _ => False
  end.

(* ================================================================== *)
(** ** More sample data *)

Definition two_summaries : pyval :=
  PDict [("knowledgeBaseSummaries",
          PList [PDict [("knowledgeBaseId", PStr "KB1"); ("name", PStr "docs");
                        ("description", PStr "product documents");
                        ("status", PStr "ACTIVE")];
                 PDict [("knowledgeBaseId", PStr "KB2")]])].

Definition listing_world : World :=
  {| boto3_client := fun _ _ => Ok tt;
     aws := fun _ => Ok two_summaries;
     utcnow := "2024-01-01T00:00:00";
     environ := fun _ => None |}.

(** A service that answers a list where a document is expected. *)
Definition list_world : World :=
  {| boto3_client := fun _ _ => Ok tt;
     aws := fun _ => Ok (PList []);
     utcnow := "2024-01-01T00:00:00";
     environ := fun _ => None |}.

Definition sample_client : BedrockKnowledgeBaseClient :=
  {| region_name := "us-west-2" |}.

Definition kb_lookup_fails : string -> outcome pyval :=
  fun _ => Raise sample_exc.

Definition kb_lookup_finds : string -> outcome pyval :=
  fun _ => Ok (PDict [("knowledgeBase",
                       PDict [("name", PStr "docs"); ("status", PStr "ACTIVE")])]).

Definition kb_lookup_odd : string -> outcome pyval :=
  fun _ => Ok (PDict [("knowledgeBase", PStr "docs")]).

Definition full_record : pyval :=
  PDict [("content", PDict [("text", PStr "alpha")]);
         ("score", PFloat 0.75%float);
         ("metadata", PDict [("page", PInt 3)])].

(* ================================================================== *)
(** ** Proof automation for the shapes *)

Ltac shape_step :=
  match goal with
  | H : true = true |- _ => clear H
  | H : _ && _ = true |- _ => apply andb_prop in H; destruct H
  | H : optional ?d ?k _ = true |- _ =>
      unfold optional in H; destruct (lookup k d) as [?|] eqn:?
  | H : is_str ?v = true |- _ => destruct v; try discriminate H; clear H
  | H : is_float ?v = true |- _ => destruct v; try discriminate H; clear H
  | H : is_dict ?v = true |- _ => destruct v; try discriminate H; clear H
  | H : content_shape _ = true |- _ => unfold content_shape in H
  | H : s3_location_shape _ = true |- _ => unfold s3_location_shape in H
  | H : location_shape _ = true |- _ => unfold location_shape in H
  | H : dict_with _ ?v = true |- _ =>
      destruct v; try discriminate H; cbn [dict_with] in H; simpl
  end.

Ltac validate laws :=
  simpl;
  rewrite ?(str_kept _ laws), ?(float_kept _ laws), ?(dict_kept _ laws);
  simpl.

(* ================================================================== *)
(** ** Loops and strings *)

Lemma mapM_map {A B} (f : A -> outcome B) (g : A -> B) (l : list A) :
  (forall x, In x l -> f x = Ok (g x)) -> mapM f l = Ok (map g l).
Proof.
  induction l as [|x xs IH]; intros Hf; simpl.
  - reflexivity.
  - rewrite (Hf x (or_introl eq_refl)); simpl.
    rewrite IH by (intros y Hy; apply Hf; right; exact Hy).
    reflexivity.
Qed.

Lemma mapM_Forall2 {A B} (f : A -> outcome B) (l : list A) (l' : list B) :
  mapM f l = Ok l' -> Forall2 (fun x y => f x = Ok y) l l'.
Proof.
  revert l'; induction l as [|x xs IH]; intros l' H; simpl in H.
  - injection H as <-. constructor.
  - destruct (f x) as [y|e] eqn:Hx; simpl in H; [|discriminate].
    destruct (mapM f xs) as [ys|e] eqn:Hxs; simpl in H; [|discriminate].
    injection H as <-. constructor; [exact Hx | apply IH; reflexivity].
Qed.

Lemma Forall2_map_r {A B} (f : A -> outcome B) (g : A -> B) (l : list A) :
  (forall x, In x l -> f x = Ok (g x)) ->
  Forall2 (fun x y => f x = Ok y) l (map g l).
Proof.
  intros Hf. apply mapM_Forall2, mapM_map, Hf.
Qed.

Lemma split_not_nil (sep : ascii) (s : string) : split sep s <> [].
Proof.
  destruct s as [|c s]; simpl; [discriminate|].
  destruct (Ascii.eqb c sep); [discriminate|].
  destruct (split sep s); discriminate.
Qed.

Lemma split_no_sep (sep : ascii) (s : string) :
  contains sep s = false -> split sep s = [s].
Proof.
  induction s as [|c s IH]; simpl; intros H; [reflexivity|].
  apply orb_false_elim in H as [Hc Hs].
  rewrite Hc, (IH Hs). reflexivity.
Qed.

Lemma last_cons_not_nil {A} (x : A) (l : list A) (d : A) :
  l <> [] -> last (x :: l) d = last l d.
Proof.
  destruct l; [congruence | reflexivity].
Qed.

Lemma last_split_cons (sep c : ascii) (s : string) :
  last_item (split sep (String c s)) = 
  if Ascii.eqb c sep || contains sep s then last_item (split sep s)
  else String c s.
Proof.
  unfold last_item; simpl.
  destruct (Ascii.eqb c sep) eqn:Hc; simpl.
  - apply last_cons_not_nil, split_not_nil.
  - destruct (contains sep s) eqn:Hs.
    + destruct (split sep s) as [|p ps] eqn:Hsp; [now apply split_not_nil in Hsp|].
      destruct ps as [|q qs]; [|reflexivity].
      (* a single piece would mean no separator *)
      exfalso. clear c Hc. revert p Hsp Hs.
      induction s as [|a s IH]; simpl; intros p Hsp Hs; [discriminate|].
      destruct (Ascii.eqb a sep) eqn:Ha.
      * injection Hsp as _ Hsp. now apply split_not_nil in Hsp.
      * simpl in Hs. destruct (split sep s) as [|p' ps'] eqn:E; [now apply split_not_nil in E|].
        injection Hsp as _ ->. apply (IH p' eq_refl Hs).
    + rewrite (split_no_sep _ _ Hs). reflexivity.
Qed.

Lemma contains_app (sep : ascii) (pre name : string) :
  contains sep (pre ++ String sep name) = true.
Proof.
  induction pre as [|a pre IH]; simpl.
  - rewrite Ascii.eqb_refl. reflexivity.
  - rewrite IH. apply orb_true_r.
Qed.

(** The last piece of [pre ++ "/" ++ name] is [name] when [name] has no
    separator. *)
Lemma last_split_app (sep : ascii) (pre name : string) :
  contains sep name = false ->
  last_item (split sep (pre ++ String sep name)) = name.
Proof.
  intros Hn. induction pre as [|c pre IH].
  - cbn [append]. rewrite last_split_cons, Ascii.eqb_refl; simpl.
    unfold last_item. rewrite (split_no_sep _ _ Hn). reflexivity.
  - cbn [append]. rewrite last_split_cons, IH, contains_app, orb_true_r.
    reflexivity.
Qed.

(** [short_model_name] is the substring after the last ['/']. *)
Lemma short_model_name_after_last_slash (pre name : string) :
  contains "/"%char name = false ->
  short_model_name (pre ++ "/" ++ name) = name.
Proof.
  intros Hn. unfold short_model_name.
  change ("/" ++ name) with (String "/"%char name).
  rewrite contains_app. apply last_split_app, Hn.
Qed.

(* ================================================================== *)
(** ** Normalisation of one record *)

Section Normalisation.

Variable P : Pydantic.
Hypothesis laws : PydanticLaws P.

Lemma parse_result_normalized (r : pyval) :
  retrieval_result_shape r = true ->
  parse_result P r = Ok (normalized_result r).
Proof.
  intros H. unfold retrieval_result_shape in H.
  unfold parse_result, normalized_result, str_at, float_at, dict_at, path, get,
    SearchResult_init, pydantic_optional_str.
  repeat shape_step; validate laws;
    repeat match goal with
    | |- context [String.eqb ?s "S3"] => is_var s; destruct (String.eqb s "S3")
    end;
    validate laws; reflexivity.
Qed.

Lemma parse_reference_normalized (r : pyval) :
  reference_shape r = true ->
  parse_reference P r = Ok (normalized_citation r).
Proof.
  intros H. unfold reference_shape in H.
  unfold parse_reference, normalized_citation, str_at, dict_at, path, get,
    Citation_init, pydantic_optional_str.
  repeat shape_step; validate laws;
    repeat match goal with
    | |- context [String.eqb ?s "S3"] => is_var s; destruct (String.eqb s "S3")
    | |- context [match ?d with [] => _ | _ :: _ => _ end] =>
        is_var d; destruct d; simpl in *; try discriminate
    end;
    validate laws; reflexivity.
Qed.

End Normalisation.

(* ================================================================== *)
(** ** The client wrapper and the try blocks *)

Section Wrapper.

Variable w : World.
Variable self : BedrockKnowledgeBaseClient.

Lemma query_knowledge_base_returns (kb q : string) (n : Z) (j : pyval) :
  aws w (Retrieve kb q n) = Ok j ->
  query_knowledge_base w self kb q n = ([Retrieve kb q n], Ok j).
Proof.
  intros H. unfold query_knowledge_base, invoke; simpl. rewrite H. reflexivity.
Qed.

Lemma query_knowledge_base_swallows (kb q : string) (n : Z) (e : pyexc) :
  aws w (Retrieve kb q n) = Raise e ->
  query_knowledge_base w self kb q n = ([Retrieve kb q n], Ok (PDict [])).
Proof.
  intros H. unfold query_knowledge_base, invoke; simpl. rewrite H. reflexivity.
Qed.

Lemma retrieve_and_generate_returns (kb q arn : string) (n : Z) (j : pyval) :
  aws w (RetrieveAndGenerate kb q arn n) = Ok j ->
  retrieve_and_generate w self kb q arn n = ([RetrieveAndGenerate kb q arn n], Ok j).
Proof.
  intros H. unfold retrieve_and_generate, invoke; simpl. rewrite H. reflexivity.
Qed.

Lemma retrieve_and_generate_swallows (kb q arn : string) (n : Z) (e : pyexc) :
  aws w (RetrieveAndGenerate kb q arn n) = Raise e ->
  retrieve_and_generate w self kb q arn n
  = ([RetrieveAndGenerate kb q arn n], Ok (PDict [])).
Proof.
  intros H. unfold retrieve_and_generate, invoke; simpl. rewrite H. reflexivity.
Qed.

Lemma client_list_knowledge_bases_swallows (e : pyexc) :
  aws w ListKnowledgeBases = Raise e ->
  client_list_knowledge_bases w self = ([ListKnowledgeBases], Ok (PList [])).
Proof.
  intros H. unfold client_list_knowledge_bases, invoke; simpl. rewrite H. reflexivity.
Qed.

End Wrapper.

Lemma forallb_In {A} (p : A -> bool) (l : list A) (x : A) :
  forallb p l = true -> In x l -> p x = true.
Proof.
  intros H Hx. rewrite forallb_forall in H. apply H, Hx.
Qed.

Lemma concat_map_map {A B C} (f : B -> C) (h : A -> list B) (l : list A) :
  List.concat (map (fun g => map f (h g)) l) = map f (flat_map h l).
Proof.
  induction l as [|x xs IH]; simpl; [reflexivity|].
  rewrite IH, map_app. reflexivity.
Qed.

Section Responses.

Variable P : Pydantic.
Hypothesis laws : PydanticLaws P.
Variable w : World.

Lemma retrieval_records_shaped (j : pyval) :
  retrieve_response_shape j = true ->
  forallb retrieval_result_shape (retrieval_records j) = true.
Proof.
  intros H. unfold retrieve_response_shape in H.
  unfold retrieval_records, list_at, path.
  destruct j; try discriminate H. cbn [dict_with] in H.
  unfold optional in H. destruct (lookup "retrievalResults" d) as [v|]; [|reflexivity].
  destruct v; try discriminate H. exact H.
Qed.

Lemma parse_search_normalized (request : SearchRequest.t) (kb_id : string) (j : pyval) :
  retrieve_response_shape j = true ->
  parse_search P w request kb_id j
  = Ok {| SearchResponse.query := SearchRequest.query request;
          SearchResponse.results := map normalized_result (retrieval_records j);
          SearchResponse.total_results := Z.of_nat (List.length (retrieval_records j));
          SearchResponse.knowledge_base_id := kb_id;
          SearchResponse.timestamp := utcnow w |}.
Proof.
  intros H. pose proof (retrieval_records_shaped j H) as Hall.
  unfold retrieve_response_shape in H.
  unfold retrieval_records, list_at, path in *.
  destruct j; try discriminate H. cbn [dict_with] in H.
  unfold parse_search, get; simpl.
  unfold optional in H.
  destruct (lookup "retrievalResults" d) as [v|]; simpl.
  - destruct v; try discriminate H; simpl.
    rewrite (mapM_map _ normalized_result); simpl.
    + rewrite length_map. reflexivity.
    + intros x Hx. apply (parse_result_normalized P laws), (forallb_In _ _ _ Hall Hx).
  - reflexivity.
Qed.

Lemma parse_citation_normalized (g : pyval) :
  citation_shape g = true ->
  parse_citation P g = Ok (map normalized_citation (list_at g ["retrievedReferences"])).
Proof.
  intros H. unfold citation_shape in H.
  destruct g; try discriminate H. cbn [dict_with] in H.
  unfold parse_citation, list_at, path, get; simpl.
  unfold optional in H.
  destruct (lookup "retrievedReferences" d) as [v|]; simpl; [|reflexivity].
  destruct v; try discriminate H; simpl. cbn [list_of] in H.
  apply mapM_map. intros x Hx.
  apply (parse_reference_normalized P laws), (forallb_In _ _ _ H Hx).
Qed.

Lemma parse_summary_normalized (request : SummarizeRequest.t) (kb_id arn : string)
    (j : pyval) :
  generate_response_shape j = true ->
  parse_summary P w request kb_id arn j
  = Ok {| SummarizeResponse.query := SummarizeRequest.query request;
          SummarizeResponse.generated_response :=
            str_at j ["output"; "text"] "No response generated";
          SummarizeResponse.citations :=
            map normalized_citation (retrieved_references j);
          SummarizeResponse.knowledge_base_id := kb_id;
          SummarizeResponse.model_used := short_model_name arn;
          SummarizeResponse.timestamp := utcnow w |}.
Proof.
  intros H. unfold generate_response_shape in H.
  destruct j; try discriminate H. cbn [dict_with] in H.
  apply andb_prop in H as [Hout Hcit].
  assert (Hc : exists groups,
             (match lookup "citations" d with Some x => x | None => PList [] end)
             = PList groups
             /\ list_at (PDict d) ["citations"] = groups
             /\ forallb citation_shape groups = true).
  { unfold list_at, path, optional in *.
    destruct (lookup "citations" d) as [v|].
    - destruct v; try discriminate Hcit. eexists; repeat split. exact Hcit.
    - exists []. repeat split. }
  destruct Hc as (groups & Hget & Hlist & Hall).
  unfold parse_summary, retrieved_references.
  rewrite Hlist. unfold get at 3. rewrite Hget.
  assert (Hm : mapM (parse_citation P) groups
               = Ok (map (fun g => map normalized_citation
                                     (list_at g ["retrievedReferences"])) groups)).
  { apply mapM_map. intros g Hg.
    apply parse_citation_normalized, (forallb_In _ _ _ Hall Hg). }
  unfold str_at, path, get, SummarizeResponse_init, optional in *.
  destruct (lookup "output" d) as [o|]; simpl.
  - destruct o; try discriminate Hout. cbn [dict_with] in Hout. simpl.
    destruct (lookup "text" d0) as [t|]; simpl.
    + destruct t; try discriminate Hout. simpl.
      rewrite Hm; simpl. rewrite (str_kept _ laws), concat_map_map. reflexivity.
    + rewrite Hm; simpl. rewrite (str_kept _ laws), concat_map_map. reflexivity.
  - rewrite Hm; simpl. rewrite (str_kept _ laws), concat_map_map. reflexivity.
Qed.

End Responses.

Lemma strict_laws : PydanticLaws strict.
Proof.
  split; reflexivity.
Qed.

(** What the handlers' [except] clause is for: an exception that reaches it
    is answered as a 500 whose detail carries [str(e)]. *)
Lemma search_surfaces_exception (P : Pydantic) (w : World) (cfg : Config)
    (client : BedrockKnowledgeBaseClient) (request : SearchRequest.t)
    (j : pyval) (e : pyexc) :
  bedrock_client cfg = Some client ->
  not_configured (effective_kb_id cfg (SearchRequest.knowledge_base_id request)) = false ->
  aws w (Retrieve (effective_kb_id cfg (SearchRequest.knowledge_base_id request))
                  (SearchRequest.query request)
                  (SearchRequest.max_results request)) = Ok j ->
  parse_search P w request
    (effective_kb_id cfg (SearchRequest.knowledge_base_id request)) j = Raise e ->
  snd (search_knowledge_base P w cfg request)
  = HTTPException 500 ("Search failed: " ++ exc_msg e).
Proof.
  intros Hc Hk Hj He. unfold search_knowledge_base.
  rewrite Hc, Hk, (query_knowledge_base_returns _ _ _ _ _ _ Hj).
  unfold bind, lift, guarded. rewrite He. reflexivity.
Qed.

Example search_surfaces_attribute_error :
  search_knowledge_base strict malformed_world (startup malformed_world) sample_search
  = ([Retrieve "DFVMT0Y6LF" "what is this" 5],
     HTTPException 500 "Search failed: 'str' object has no attribute 'get'").
Proof.
  reflexivity.
Qed.

(* ================================================================== *)
(** ** Upstream failures *)

(** C1. The claim asks that an exception raised by the outbound call be
    answered as an internal error carrying its message. The wrapper of
    [test.py] catches it and returns an empty value, so the handlers never
    see it: whenever the client is available and the identifier configured,
    a service on which the call raises makes [POST /search] answer a
    success with no results, [POST /summarize] a success with the default
    text and no citations, and [GET /knowledge-bases] a success with an
    empty list. *)
Theorem upstream_failure_answered_as_success
    (P : Pydantic) (w : World) (cfg : Config) (client : BedrockKnowledgeBaseClient)
    (rs : SearchRequest.t) (rq : SummarizeRequest.t) (e : pyexc) :
  PydanticLaws P ->
  bedrock_client cfg = Some client ->
  not_configured (effective_kb_id cfg (SearchRequest.knowledge_base_id rs)) = false ->
  not_configured (effective_kb_id cfg (SummarizeRequest.knowledge_base_id rq)) = false ->
  (forall c, aws w c = Raise e) ->
  search_knowledge_base P w cfg rs
  = ([Retrieve (effective_kb_id cfg (SearchRequest.knowledge_base_id rs))
               (SearchRequest.query rs) (SearchRequest.max_results rs)],
     Respond {| SearchResponse.query := SearchRequest.query rs;
                SearchResponse.results := [];
                SearchResponse.total_results := 0;
                SearchResponse.knowledge_base_id :=
                  effective_kb_id cfg (SearchRequest.knowledge_base_id rs);
                SearchResponse.timestamp := utcnow w |})
  /\ summarize_with_knowledge_base P w cfg rq
     = ([RetrieveAndGenerate
           (effective_kb_id cfg (SummarizeRequest.knowledge_base_id rq))
           (SummarizeRequest.query rq)
           (or_str (SummarizeRequest.model_arn rq) (MODEL_ARN cfg))
           (SummarizeRequest.max_results rq)],
        Respond {| SummarizeResponse.query := SummarizeRequest.query rq;
                   SummarizeResponse.generated_response := "No response generated";
                   SummarizeResponse.citations := [];
                   SummarizeResponse.knowledge_base_id :=
                     effective_kb_id cfg (SummarizeRequest.knowledge_base_id rq);
                   SummarizeResponse.model_used :=
                     short_model_name
                       (or_str (SummarizeRequest.model_arn rq) (MODEL_ARN cfg));
                   SummarizeResponse.timestamp := utcnow w |})
  /\ list_knowledge_bases P w cfg = ([ListKnowledgeBases], Respond []).
Proof.
  intros laws Hc Hs Hq Hraise. repeat split.
  - unfold search_knowledge_base. rewrite Hc, Hs.
    rewrite (query_knowledge_base_swallows _ _ _ _ _ e) by apply Hraise.
    reflexivity.
  - unfold summarize_with_knowledge_base. rewrite Hc, Hq.
    rewrite (retrieve_and_generate_swallows _ _ _ _ _ _ e) by apply Hraise.
    unfold bind, lift, guarded, parse_summary, SummarizeResponse_init; simpl.
    rewrite (str_kept _ laws). reflexivity.
  - unfold list_knowledge_bases. rewrite Hc.
    rewrite (client_list_knowledge_bases_swallows _ _ e) by apply Hraise.
    reflexivity.
Qed.

Lemma upstream_failure_answered_as_success_witness :
  search_knowledge_base strict failing_world (startup failing_world) sample_search
  = ([Retrieve "DFVMT0Y6LF" "what is this" 5],
     Respond {| SearchResponse.query := "what is this";
                SearchResponse.results := [];
                SearchResponse.total_results := 0;
                SearchResponse.knowledge_base_id := "DFVMT0Y6LF";
                SearchResponse.timestamp := "2024-01-01T00:00:00" |}).
Proof.
  exact (proj1 (upstream_failure_answered_as_success strict failing_world
                  (startup failing_world) {| region_name := "us-west-2" |}
                  sample_search sample_summarize sample_exc
                  strict_laws eq_refl eq_refl eq_refl (fun _ => eq_refl))).
Defined.

(* ================================================================== *)
(** ** Defaults of one record *)

Lemma str_at_absent (r : pyval) (ks : list string) (default : string) :
  path r ks = None -> str_at r ks default = default.
Proof.
  intros H. unfold str_at. rewrite H. reflexivity.
Qed.

Lemma float_at_absent (r : pyval) (ks : list string) (default : float) :
  path r ks = None -> float_at r ks default = default.
Proof.
  intros H. unfold float_at. rewrite H. reflexivity.
Qed.

(** C2, as stated, at a retrieved reference with no content: the citation
    does not carry the sentinel of the retrieval records, it carries
    ["No content"]. *)
Lemma citation_sentinel_counterexample :
  reference_shape (PDict []) = true
  /\ path (PDict []) ["content"; "text"] = None
  /\ parse_reference strict (PDict [])
     = Ok {| Citation.content := "No content";
             Citation.source_location := None;
             Citation.metadata := [] |}
  /\ ~ (exists c, parse_reference strict (PDict []) = Ok c
                  /\ Citation.content c = "No content available").
Proof.
  repeat split.
  intros (c & Hc & Hs). cbv in Hc. injection Hc as <-. discriminate Hs.
Qed.

(** C2, amended. A retrieval record without the nested content text
    normalises to content ["No content available"], one without a score
    to score [0.0]; a retrieved reference without the nested content text
    normalises to a citation of content ["No content"]. *)
Theorem missing_content_and_score_defaults
    (P : Pydantic) (record reference : pyval) :
  PydanticLaws P ->
  retrieval_result_shape record = true ->
  reference_shape reference = true ->
  exists result citation,
    parse_result P record = Ok result
    /\ parse_reference P reference = Ok citation
    /\ (path record ["content"; "text"] = None ->
        SearchResult.content result = "No content available")
    /\ (path record ["score"] = None -> SearchResult.score result = 0%float)
    /\ (path reference ["content"; "text"] = None ->
        Citation.content citation = "No content").
Proof.
  intros laws Hr Hc.
  exists (normalized_result record), (normalized_citation reference).
  split; [apply parse_result_normalized; assumption|].
  split; [apply parse_reference_normalized; assumption|].
  repeat split; intros H; simpl.
  - apply str_at_absent, H.
  - apply float_at_absent, H.
  - apply str_at_absent, H.
Qed.

Lemma missing_content_and_score_defaults_witness :
  exists result citation,
    parse_result strict web_record = Ok result
    /\ parse_reference strict (PDict []) = Ok citation
    /\ SearchResult.content result = "No content available"
    /\ SearchResult.score result = 0%float
    /\ Citation.content citation = "No content".
Proof.
  destruct (missing_content_and_score_defaults strict web_record (PDict [])
              strict_laws eq_refl eq_refl)
    as (result & citation & Hr & Hc & H1 & H2 & H3).
  exists result, citation.
  exact (conj Hr (conj Hc (conj (H1 eq_refl) (conj (H2 eq_refl) (H3 eq_refl))))).
Defined.

(** C4. The source kind of a retrieval record is the nested location type,
    ["Unknown"] when absent; when the kind is ["S3"] the source location
    is the nested URI, ["Unknown S3 location"] when absent; for any other
    kind the source location is unset. *)
Theorem source_location_follows_kind (P : Pydantic) (record : pyval) :
  PydanticLaws P ->
  retrieval_result_shape record = true ->
  exists result,
    parse_result P record = Ok result
    /\ SearchResult.source_type result = str_at record ["location"; "type"] "Unknown"
    /\ (SearchResult.source_type result = "S3" ->
        SearchResult.source_location result
        = Some (str_at record ["location"; "s3Location"; "uri"] "Unknown S3 location"))
    /\ (SearchResult.source_type result <> "S3" ->
        SearchResult.source_location result = None).
Proof.
  intros laws Hr. exists (normalized_result record).
  split; [apply parse_result_normalized; assumption|].
  split; [reflexivity|]. simpl.
  destruct (String.eqb_spec (str_at record ["location"; "type"] "Unknown") "S3")
    as [E|E]; split; intros H; try reflexivity; contradiction.
Qed.

Lemma source_location_follows_kind_witness :
  (exists result,
      parse_result strict s3_record = Ok result
      /\ SearchResult.source_type result = "S3"
      /\ SearchResult.source_location result = Some "s3://bucket/key")
  /\ (exists result,
         parse_result strict web_record = Ok result
         /\ SearchResult.source_type result = "WEB"
         /\ SearchResult.source_location result = None).
Proof.
  split.
  - destruct (source_location_follows_kind strict s3_record strict_laws eq_refl)
      as (result & Hr & Ht & Hs3 & _).
    exists result. exact (conj Hr (conj Ht (Hs3 Ht))).
  - destruct (source_location_follows_kind strict web_record strict_laws eq_refl)
      as (result & Hr & Ht & _ & Hother).
    exists result. refine (conj Hr (conj Ht (Hother _))).
    rewrite Ht. discriminate.
Defined.

(* ================================================================== *)
(** ** [POST /search] and [POST /summarize] on an upstream response *)

Lemma Forall2_length_eq {A B} (R : A -> B -> Prop) (l : list A) (l' : list B) :
  Forall2 R l l' -> List.length l' = List.length l.
Proof.
  induction 1; simpl; congruence.
Qed.

Lemma references_shaped (group : pyval) :
  citation_shape group = true ->
  forallb reference_shape (list_at group ["retrievedReferences"]) = true.
Proof.
  intros H. unfold citation_shape in H.
  destruct group; try discriminate H. cbn [dict_with] in H.
  unfold list_at, path. unfold optional in H.
  destruct (lookup "retrievedReferences" d) as [v|]; [|reflexivity].
  destruct v; try discriminate H. exact H.
Qed.

Lemma citations_shaped (response : pyval) :
  generate_response_shape response = true ->
  forallb citation_shape (list_at response ["citations"]) = true.
Proof.
  intros H. unfold generate_response_shape in H.
  destruct response; try discriminate H. cbn [dict_with] in H.
  apply andb_prop in H as [_ H].
  unfold list_at, path. unfold optional in H.
  destruct (lookup "citations" d) as [v|]; [|reflexivity].
  destruct v; try discriminate H. exact H.
Qed.

Lemma retrieved_references_shaped (response : pyval) :
  generate_response_shape response = true ->
  forallb reference_shape (retrieved_references response) = true.
Proof.
  intros H. apply forallb_forall. intros x Hx.
  unfold retrieved_references in Hx.
  apply in_flat_map in Hx as (g & Hg & Hx).
  apply (forallb_In _ _ _ (references_shaped g
           (forallb_In _ _ _ (citations_shaped _ H) Hg)) Hx).
Qed.

(** C7. When the retrieval call answers [response], [POST /search] returns
    one normalised entry per record of [response], in the order of the
    response: its results are [normalized_result] mapped over the records,
    each of them what the loop body makes of its record, and
    [total_results] is the length of that list. *)
Theorem search_returns_one_result_per_record
    (P : Pydantic) (w : World) (cfg : Config) (client : BedrockKnowledgeBaseClient)
    (request : SearchRequest.t) (response : pyval) :
  PydanticLaws P ->
  bedrock_client cfg = Some client ->
  not_configured
    (effective_kb_id cfg (SearchRequest.knowledge_base_id request)) = false ->
  aws w (Retrieve (effective_kb_id cfg (SearchRequest.knowledge_base_id request))
                  (SearchRequest.query request)
                  (SearchRequest.max_results request)) = Ok response ->
  retrieve_response_shape response = true ->
  exists body,
    search_knowledge_base P w cfg request
    = ([Retrieve (effective_kb_id cfg (SearchRequest.knowledge_base_id request))
                 (SearchRequest.query request)
                 (SearchRequest.max_results request)],
       Respond body)
    /\ SearchResponse.results body
       = map normalized_result (retrieval_records response)
    /\ Forall2 (fun record result => parse_result P record = Ok result)
               (retrieval_records response) (SearchResponse.results body)
    /\ SearchResponse.total_results body
       = Z.of_nat (List.length (SearchResponse.results body))
    /\ List.length (SearchResponse.results body)
       = List.length (retrieval_records response).
Proof.
  intros laws Hc Hk Hj Hshape.
  eexists. split.
  - unfold search_knowledge_base.
    rewrite Hc, Hk, (query_knowledge_base_returns _ _ _ _ _ _ Hj).
    unfold bind, lift, guarded.
    rewrite (parse_search_normalized P laws w _ _ _ Hshape). reflexivity.
  - simpl. split; [reflexivity|]. split; [|split].
    + apply Forall2_map_r. intros x Hx.
      apply (parse_result_normalized P laws).
      apply (forallb_In _ _ _ (retrieval_records_shaped _ Hshape) Hx).
    + rewrite length_map. reflexivity.
    + apply length_map.
Qed.

Lemma search_returns_one_result_per_record_witness :
  exists body,
    search_knowledge_base strict healthy_world (startup healthy_world) sample_search
    = ([Retrieve "DFVMT0Y6LF" "what is this" 5], Respond body)
    /\ SearchResponse.results body
       = [ {| SearchResult.content := "alpha";
              SearchResult.score := 0.75%float;
              SearchResult.source_type := "S3";
              SearchResult.source_location := Some "s3://bucket/key";
              SearchResult.metadata := [("page", PInt 3)] |};
           {| SearchResult.content := "beta";
              SearchResult.score := 0.5%float;
              SearchResult.source_type := "Unknown";
              SearchResult.source_location := None;
              SearchResult.metadata := [] |} ]
    /\ Forall2 (fun record result => parse_result strict record = Ok result)
               [s3_record; bare_record] (SearchResponse.results body)
    /\ SearchResponse.total_results body = 2.
Proof.
  destruct (search_returns_one_result_per_record strict healthy_world
              (startup healthy_world) {| region_name := "us-west-2" |}
              sample_search two_records strict_laws eq_refl eq_refl eq_refl eq_refl)
    as (body & Hrun & Hmap & Hall & Htotal & Hlen).
  exists body. refine (conj Hrun (conj Hmap (conj Hall _))).
  rewrite Htotal, Hlen. reflexivity.
Defined.

(** C3. When the retrieve-and-generate call answers [response],
    [POST /summarize] returns exactly one citation per retrieved reference,
    taken across every citation group in the order encountered: its
    citations are [normalized_citation] mapped over the flattened
    references, each of them what the loop body makes of its reference, and
    [model_used] is the substring after the last ['/'] of the model
    identifier (the identifier itself when it has no ['/']). *)
Theorem summarize_flattens_citations
    (P : Pydantic) (w : World) (cfg : Config) (client : BedrockKnowledgeBaseClient)
    (request : SummarizeRequest.t) (response : pyval) :
  PydanticLaws P ->
  bedrock_client cfg = Some client ->
  not_configured
    (effective_kb_id cfg (SummarizeRequest.knowledge_base_id request)) = false ->
  aws w (RetrieveAndGenerate
           (effective_kb_id cfg (SummarizeRequest.knowledge_base_id request))
           (SummarizeRequest.query request)
           (or_str (SummarizeRequest.model_arn request) (MODEL_ARN cfg))
           (SummarizeRequest.max_results request)) = Ok response ->
  generate_response_shape response = true ->
  exists body,
    summarize_with_knowledge_base P w cfg request
    = ([RetrieveAndGenerate
          (effective_kb_id cfg (SummarizeRequest.knowledge_base_id request))
          (SummarizeRequest.query request)
          (or_str (SummarizeRequest.model_arn request) (MODEL_ARN cfg))
          (SummarizeRequest.max_results request)],
       Respond body)
    /\ SummarizeResponse.citations body
       = map normalized_citation (retrieved_references response)
    /\ Forall2 (fun reference citation => parse_reference P reference = Ok citation)
               (retrieved_references response) (SummarizeResponse.citations body)
    /\ List.length (SummarizeResponse.citations body)
       = List.length (retrieved_references response)
    /\ (forall pre name,
          or_str (SummarizeRequest.model_arn request) (MODEL_ARN cfg)
          = pre ++ "/" ++ name ->
          contains "/"%char name = false ->
          SummarizeResponse.model_used body = name)
    /\ (contains "/"%char
          (or_str (SummarizeRequest.model_arn request) (MODEL_ARN cfg)) = false ->
        SummarizeResponse.model_used body
        = or_str (SummarizeRequest.model_arn request) (MODEL_ARN cfg)).
Proof.
  intros laws Hc Hk Hj Hshape.
  pose proof (retrieved_references_shaped _ Hshape) as Hrefs.
  eexists. split.
  - unfold summarize_with_knowledge_base.
    rewrite Hc, Hk, (retrieve_and_generate_returns _ _ _ _ _ _ _ Hj).
    unfold bind, lift, guarded.
    rewrite (parse_summary_normalized P laws w _ _ _ _ Hshape). reflexivity.
  - simpl. split; [reflexivity|]. split; [|split; [|split]].
    + apply Forall2_map_r. intros x Hx.
      apply (parse_reference_normalized P laws), (forallb_In _ _ _ Hrefs Hx).
    + apply length_map.
    + intros pre name -> Hname. apply short_model_name_after_last_slash, Hname.
    + intros Hno. unfold short_model_name. rewrite Hno. reflexivity.
Qed.

Lemma summarize_flattens_citations_witness :
  exists body,
    snd (summarize_with_knowledge_base strict healthy_world (startup healthy_world)
           sample_summarize) = Respond body
    /\ SummarizeResponse.citations body
       = [ {| Citation.content := "first";
              Citation.source_location := Some "s3://bucket/one";
              Citation.metadata := [] |};
           {| Citation.content := "second";
              Citation.source_location := None;
              Citation.metadata := [] |} ]
    /\ Forall2 (fun reference citation => parse_reference strict reference = Ok citation)
               [ref_one; ref_two] (SummarizeResponse.citations body)
    /\ SummarizeResponse.model_used body = "anthropic.claude-3-sonnet-20240229-v1:0".
Proof.
  destruct (summarize_flattens_citations strict healthy_world
              (startup healthy_world) {| region_name := "us-west-2" |}
              sample_summarize one_group strict_laws eq_refl eq_refl eq_refl eq_refl)
    as (body & Hrun & Hmap & Hall & _ & Hname & _).
  exists body. split; [rewrite Hrun; reflexivity|].
  refine (conj Hmap (conj Hall _)).
  exact (Hname "arn:aws:bedrock:us-west-2::foundation-model"
               "anthropic.claude-3-sonnet-20240229-v1:0" eq_refl eq_refl).
Defined.

(* ================================================================== *)
(** ** Request validation *)

Lemma str_field_bounds (P : Pydantic) (lo hi : Z) (v : option pyval) (s : string) :
  str_field P lo hi v = Some s -> lo <= len s <= hi.
Proof.
  unfold str_field. destruct v as [x|]; [|discriminate].
  destruct (pydantic_str P x) as [s'|]; [|discriminate].
  destruct ((lo <=? len s') && (len s' <=? hi)) eqn:E; [|discriminate].
  intros [= <-]. apply andb_prop in E as [E1 E2]. lia.
Qed.

Lemma int_field_bounds (P : Pydantic) (dflt lo hi : Z) (v : option pyval) (n : Z) :
  lo <= dflt <= hi -> int_field P dflt lo hi v = Some n -> lo <= n <= hi.
Proof.
  intros Hd. unfold int_field. destruct v as [x|]; [|intros [= <-]; exact Hd].
  destruct (pydantic_int P x) as [n'|]; [|discriminate].
  destruct ((lo <=? n') && (n' <=? hi)) eqn:E; [|discriminate].
  intros [= <-]. apply andb_prop in E as [E1 E2]. lia.
Qed.

(** C5. [POST /search] lets a body through only with a query of 1 to 1000
    characters and [max_results] between 1 and 20, and lets every such
    body through; a body whose query is the empty string is rejected
    whatever its other fields, and so is a body whose [max_results] is 21.
    A rejected body reaches neither the handler nor the service. *)
Theorem search_request_validation (P : Pydantic) (w : World) (cfg : Config) :
  PydanticLaws P ->
  (forall body request,
      SearchRequest_validate P body = Some request ->
      1 <= len (SearchRequest.query request) <= 1000
      /\ 1 <= SearchRequest.max_results request <= 20)
  /\ (forall q n,
         1 <= len q <= 1000 -> 1 <= n <= 20 ->
         SearchRequest_validate P (PDict [("query", PStr q); ("max_results", PInt n)])
         = Some {| SearchRequest.query := q;
                   SearchRequest.max_results := n;
                   SearchRequest.knowledge_base_id := None |})
  /\ (forall fields,
         lookup "query" fields = Some (PStr "") ->
         post_search P w cfg (PDict fields) = ([], Unprocessable))
  /\ (forall fields,
         lookup "max_results" fields = Some (PInt 21) ->
         post_search P w cfg (PDict fields) = ([], Unprocessable)).
Proof.
  intros laws. split; [|split; [|split]].
  - intros body request H. unfold SearchRequest_validate in H.
    destruct body; try discriminate H.
    destruct (str_field P 1 1000 (lookup "query" d)) as [q|] eqn:Hq;
      [|discriminate H].
    destruct (int_field P 5 1 20 (lookup "max_results" d)) as [n|] eqn:Hn;
      [|discriminate H].
    destruct (optional_str_field P (lookup "knowledge_base_id" d)); [|discriminate H].
    injection H as <-. simpl. split.
    + apply (str_field_bounds _ _ _ _ _ Hq).
    + eapply (int_field_bounds P 5 1 20); [lia | exact Hn].
  - intros q n Hq Hn. unfold SearchRequest_validate, str_field, int_field; simpl.
    rewrite (str_kept _ laws), (int_kept _ laws).
    replace (1 <=? len q) with true by (symmetry; apply Z.leb_le; lia).
    replace (len q <=? 1000) with true by (symmetry; apply Z.leb_le; lia).
    replace (1 <=? n) with true by (symmetry; apply Z.leb_le; lia).
    replace (n <=? 20) with true by (symmetry; apply Z.leb_le; lia).
    reflexivity.
  - intros fields H. unfold post_search, SearchRequest_validate, str_field.
    rewrite H, (str_kept _ laws). reflexivity.
  - intros fields H. unfold post_search, SearchRequest_validate, int_field.
    rewrite H, (int_kept _ laws). simpl.
    destruct (str_field P 1 1000 (lookup "query" fields)); reflexivity.
Qed.

Lemma search_request_validation_witness :
  post_search strict healthy_world (startup healthy_world)
    (PDict [("query", PStr ""); ("max_results", PInt 5)]) = ([], Unprocessable)
  /\ post_search strict healthy_world (startup healthy_world)
       (PDict [("query", PStr "what is this"); ("max_results", PInt 21)])
     = ([], Unprocessable)
  /\ SearchRequest_validate strict
       (PDict [("query", PStr "what is this"); ("max_results", PInt 20)])
     = Some {| SearchRequest.query := "what is this";
               SearchRequest.max_results := 20;
               SearchRequest.knowledge_base_id := None |}.
Proof.
  destruct (search_request_validation strict healthy_world (startup healthy_world)
              strict_laws) as (_ & Hin & Hquery & Hmax).
  split; [apply Hquery; reflexivity|].
  split; [apply Hmax; reflexivity|].
  apply Hin; cbv; split; discriminate.
Defined.

(* ================================================================== *)
(** ** Configuration errors *)

Lemma not_configured_spec (kb_id : string) :
  not_configured kb_id = true <-> kb_id = "" \/ kb_id = placeholder.
Proof.
  unfold not_configured, truthy. rewrite negb_involutive, orb_true_iff.
  rewrite !String.eqb_eq. reflexivity.
Qed.

(** C6, as stated, where no client could be constructed and the
    identifier is the placeholder: both endpoints answer 503, not 400. *)
Lemma unconfigured_without_client_counterexample :
  bedrock_client (startup unavailable_world) = None
  /\ effective_kb_id (startup unavailable_world)
       (SearchRequest.knowledge_base_id sample_search) = placeholder
  /\ search_knowledge_base strict unavailable_world (startup unavailable_world)
       sample_search
     = ([], HTTPException 503 "Bedrock client not available")
  /\ summarize_with_knowledge_base strict unavailable_world
       (startup unavailable_world) sample_summarize
     = ([], HTTPException 503 "Bedrock client not available")
  /\ ~ (exists detail,
          snd (search_knowledge_base strict unavailable_world
                 (startup unavailable_world) sample_search)
          = HTTPException 400 detail)
  /\ ~ (exists detail,
          snd (summarize_with_knowledge_base strict unavailable_world
                 (startup unavailable_world) sample_summarize)
          = HTTPException 400 detail).
Proof.
  repeat split; intros [detail H]; discriminate H.
Qed.

(** C6, amended. When the effective knowledge-base identifier (the
    override of the request, else the configured default) is empty or the
    placeholder, [POST /search] and [POST /summarize] send nothing to the
    service; they answer 400 when the client is available, and 503 when it
    is not. *)
Theorem unconfigured_request_sends_nothing
    (P : Pydantic) (w : World) (cfg : Config)
    (rs : SearchRequest.t) (rq : SummarizeRequest.t) :
  (effective_kb_id cfg (SearchRequest.knowledge_base_id rs) = ""
   \/ effective_kb_id cfg (SearchRequest.knowledge_base_id rs) = placeholder) ->
  (effective_kb_id cfg (SummarizeRequest.knowledge_base_id rq) = ""
   \/ effective_kb_id cfg (SummarizeRequest.knowledge_base_id rq) = placeholder) ->
  search_knowledge_base P w cfg rs
  = ([], match bedrock_client cfg with
         | Some _ => HTTPException 400 "Knowledge base ID not configured"
         | None => HTTPException 503 "Bedrock client not available"
         end)
  /\ summarize_with_knowledge_base P w cfg rq
     = ([], match bedrock_client cfg with
            | Some _ => HTTPException 400 "Knowledge base ID not configured"
            | None => HTTPException 503 "Bedrock client not available"
            end).
Proof.
  intros Hs Hq. apply not_configured_spec in Hs, Hq.
  unfold search_knowledge_base, summarize_with_knowledge_base.
  rewrite Hs, Hq. destruct (bedrock_client cfg); split; reflexivity.
Qed.

Lemma unconfigured_request_sends_nothing_witness :
  search_knowledge_base strict placeholder_world (startup placeholder_world)
    sample_search
  = ([], HTTPException 400 "Knowledge base ID not configured")
  /\ summarize_with_knowledge_base strict placeholder_world
       (startup placeholder_world) sample_summarize
     = ([], HTTPException 400 "Knowledge base ID not configured").
Proof.
  exact (unconfigured_request_sends_nothing strict placeholder_world
           (startup placeholder_world) sample_search sample_summarize
           (or_intror eq_refl) (or_intror eq_refl)).
Defined.

(* ================================================================== *)
(** ** [GET /health] *)

(** C8. [GET /health] always answers, without calling the service, with a
    record holding the configured region and knowledge-base identifier;
    after start-up its [bedrock_available] flag is [false] exactly when
    the construction of the client raised and [true] exactly when it
    returned a client. *)
Theorem health_check_never_fails (w : World) :
  (forall cfg, exists body,
      health_check w cfg = ([], Respond body)
      /\ HealthResponse.aws_region body = AWS_REGION cfg
      /\ HealthResponse.knowledge_base_id body = KNOWLEDGE_BASE_ID cfg
      /\ (HealthResponse.bedrock_available body = false <-> bedrock_client cfg = None))
  /\ exists body,
       health_check w (startup w) = ([], Respond body)
       /\ HealthResponse.aws_region body = getenv w "AWS_REGION" "us-west-2"
       /\ HealthResponse.knowledge_base_id body
          = getenv w "KNOWLEDGE_BASE_ID" "DFVMT0Y6LF"
       /\ (HealthResponse.bedrock_available body = false <->
           exists e, BedrockKnowledgeBaseClient_init w
                       (getenv w "AWS_REGION" "us-west-2") = Raise e)
       /\ (HealthResponse.bedrock_available body = true <->
           exists client, BedrockKnowledgeBaseClient_init w
                            (getenv w "AWS_REGION" "us-west-2") = Ok client).
Proof.
  split.
  - intros cfg. eexists. split; [reflexivity|]. simpl.
    repeat split; destruct (bedrock_client cfg); congruence.
  - eexists. split; [reflexivity|]. simpl.
    destruct (BedrockKnowledgeBaseClient_init w (getenv w "AWS_REGION" "us-west-2"))
      as [c|e].
    + repeat split; try discriminate; eauto.
      intros [e He]. discriminate He.
    + repeat split; try discriminate; eauto.
      intros [c Hc]. discriminate Hc.
Qed.

(* ================================================================== *)
(** ** Normalisation has no failure mode *)

(** C9. On a response of the upstream shape, whichever of its optional
    fields are absent, the normalisation of [POST /search] and of
    [POST /summarize] returns, and what it returns has every absent field
    at its default: the records and citations are [normalized_result] and
    [normalized_citation] of the upstream entries, and the generated text
    defaults to ["No response generated"]. *)
Theorem normalisation_is_total (P : Pydantic) (w : World) :
  PydanticLaws P ->
  (forall request kb_id response,
      retrieve_response_shape response = true ->
      parse_search P w request kb_id response
      = Ok {| SearchResponse.query := SearchRequest.query request;
              SearchResponse.results :=
                map normalized_result (retrieval_records response);
              SearchResponse.total_results :=
                Z.of_nat (List.length (retrieval_records response));
              SearchResponse.knowledge_base_id := kb_id;
              SearchResponse.timestamp := utcnow w |})
  /\ (forall request kb_id model_arn response,
         generate_response_shape response = true ->
         parse_summary P w request kb_id model_arn response
         = Ok {| SummarizeResponse.query := SummarizeRequest.query request;
                 SummarizeResponse.generated_response :=
                   str_at response ["output"; "text"] "No response generated";
                 SummarizeResponse.citations :=
                   map normalized_citation (retrieved_references response);
                 SummarizeResponse.knowledge_base_id := kb_id;
                 SummarizeResponse.model_used := short_model_name model_arn;
                 SummarizeResponse.timestamp := utcnow w |}).
Proof.
  intros laws. split.
  - intros request kb_id response. apply parse_search_normalized, laws.
  - intros request kb_id model_arn response. apply parse_summary_normalized, laws.
Qed.

Lemma normalisation_is_total_witness :
  (exists body,
      parse_search strict healthy_world sample_search "DFVMT0Y6LF" sparse_retrieval
      = Ok body
      /\ SearchResponse.results body
         = [ {| SearchResult.content := "No content available";
                SearchResult.score := 0%float;
                SearchResult.source_type := "Unknown";
                SearchResult.source_location := None;
                SearchResult.metadata := [] |};
             {| SearchResult.content := "No content available";
                SearchResult.score := 0%float;
                SearchResult.source_type := "Unknown";
                SearchResult.source_location := None;
                SearchResult.metadata := [] |};
             {| SearchResult.content := "No content available";
                SearchResult.score := 0%float;
                SearchResult.source_type := "S3";
                SearchResult.source_location := Some "Unknown S3 location";
                SearchResult.metadata := [] |} ])
  /\ (exists body,
         parse_summary strict healthy_world sample_summarize "DFVMT0Y6LF"
           "model" sparse_generation = Ok body
         /\ SummarizeResponse.generated_response body = "No response generated"
         /\ SummarizeResponse.citations body
            = [ {| Citation.content := "No content";
                   Citation.source_location := None;
                   Citation.metadata := [] |};
                {| Citation.content := "No content";
                   Citation.source_location := Some "Unknown S3 location";
                   Citation.metadata := [] |} ]).
Proof.
  destruct (normalisation_is_total strict healthy_world strict_laws) as [Hs Hg].
  split.
  - eexists. split; [exact (Hs sample_search "DFVMT0Y6LF" sparse_retrieval eq_refl)|].
    reflexivity.
  - eexists.
    split; [exact (Hg sample_summarize "DFVMT0Y6LF" "model" sparse_generation eq_refl)|].
    split; reflexivity.
Defined.

(* ================================================================== *)
(** ** The knowledge-base override *)


(* ================================================================== *)
(** ** Calls sent by the handlers *)

Lemma not_configured_false (kb_id : string) :
  not_configured kb_id = false -> kb_id <> "" /\ kb_id <> placeholder.
Proof.
  intros H. split; intros E;
    assert (Ht : not_configured kb_id = true)
      by (apply not_configured_spec; auto); congruence.
Qed.

Lemma query_knowledge_base_run (w : World) (self : BedrockKnowledgeBaseClient)
    (kb q : string) (n : Z) :
  query_knowledge_base w self kb q n
  = ([Retrieve kb q n],
     Ok (match aws w (Retrieve kb q n) with Ok j => j | Raise _ => PDict [] end)).
Proof.
  unfold query_knowledge_base, invoke; simpl.
  destruct (aws w (Retrieve kb q n)); reflexivity.
Qed.

Lemma retrieve_and_generate_run (w : World) (self : BedrockKnowledgeBaseClient)
    (kb q arn : string) (n : Z) :
  retrieve_and_generate w self kb q arn n
  = ([RetrieveAndGenerate kb q arn n],
     Ok (match aws w (RetrieveAndGenerate kb q arn n) with
         | Ok j => j
         | Raise _ => PDict []
         end)).
Proof.
  unfold retrieve_and_generate, invoke; simpl.
  destruct (aws w (RetrieveAndGenerate kb q arn n)); reflexivity.
Qed.

(** What [search_knowledge_base] does once the two guards are passed. *)
Lemma search_knowledge_base_run (P : Pydantic) (w : World) (cfg : Config)
    (client : BedrockKnowledgeBaseClient) (request : SearchRequest.t) :
  bedrock_client cfg = Some client ->
  not_configured (effective_kb_id cfg (SearchRequest.knowledge_base_id request)) = false ->
  search_knowledge_base P w cfg request
  = ([Retrieve (effective_kb_id cfg (SearchRequest.knowledge_base_id request))
               (SearchRequest.query request) (SearchRequest.max_results request)],
     match parse_search P w request
             (effective_kb_id cfg (SearchRequest.knowledge_base_id request))
             (match aws w (Retrieve
                             (effective_kb_id cfg (SearchRequest.knowledge_base_id request))
                             (SearchRequest.query request)
                             (SearchRequest.max_results request)) with
              | Ok j => j
              | Raise _ => PDict []
              end) with
     | Ok body => Respond body
     | Raise e => HTTPException 500 ("Search failed: " ++ exc_msg e)
     end).
Proof.
  intros Hc Hk. unfold search_knowledge_base.
  rewrite Hc, Hk, query_knowledge_base_run.
  unfold bind, lift, guarded.
  destruct (parse_search _ _ _ _ _); reflexivity.
Qed.

(** What [summarize_with_knowledge_base] does once the two guards are passed. *)
Lemma summarize_with_knowledge_base_run (P : Pydantic) (w : World) (cfg : Config)
    (client : BedrockKnowledgeBaseClient) (request : SummarizeRequest.t) :
  bedrock_client cfg = Some client ->
  not_configured
    (effective_kb_id cfg (SummarizeRequest.knowledge_base_id request)) = false ->
  summarize_with_knowledge_base P w cfg request
  = ([RetrieveAndGenerate
        (effective_kb_id cfg (SummarizeRequest.knowledge_base_id request))
        (SummarizeRequest.query request)
        (or_str (SummarizeRequest.model_arn request) (MODEL_ARN cfg))
        (SummarizeRequest.max_results request)],
     match parse_summary P w request
             (effective_kb_id cfg (SummarizeRequest.knowledge_base_id request))
             (or_str (SummarizeRequest.model_arn request) (MODEL_ARN cfg))
             (match aws w (RetrieveAndGenerate
                             (effective_kb_id cfg
                                (SummarizeRequest.knowledge_base_id request))
                             (SummarizeRequest.query request)
                             (or_str (SummarizeRequest.model_arn request) (MODEL_ARN cfg))
                             (SummarizeRequest.max_results request)) with
              | Ok j => j
              | Raise _ => PDict []
              end) with
     | Ok body => Respond body
     | Raise e => HTTPException 500 ("Summarization failed: " ++ exc_msg e)
     end).
Proof.
  intros Hc Hk. unfold summarize_with_knowledge_base.
  rewrite Hc, Hk, retrieve_and_generate_run.
  unfold bind, lift, guarded.
  destruct (parse_summary _ _ _ _ _ _); reflexivity.
Qed.

Lemma search_knowledge_base_calls (P : Pydantic) (w : World) (cfg : Config)
    (rs : SearchRequest.t) :
  fst (search_knowledge_base P w cfg rs)
  = match bedrock_client cfg with
    | None => []
    | Some _ =>
        if not_configured (effective_kb_id cfg (SearchRequest.knowledge_base_id rs))
        then []
        else [Retrieve (effective_kb_id cfg (SearchRequest.knowledge_base_id rs))
                       (SearchRequest.query rs) (SearchRequest.max_results rs)]
    end.
Proof.
  destruct (bedrock_client cfg) as [client|] eqn:Hc.
  - destruct (not_configured
                (effective_kb_id cfg (SearchRequest.knowledge_base_id rs))) eqn:Hk.
    + unfold search_knowledge_base. rewrite Hc, Hk. reflexivity.
    + rewrite (search_knowledge_base_run P w cfg client rs Hc Hk). reflexivity.
  - unfold search_knowledge_base. rewrite Hc. reflexivity.
Qed.

Lemma summarize_with_knowledge_base_calls (P : Pydantic) (w : World) (cfg : Config)
    (rq : SummarizeRequest.t) :
  fst (summarize_with_knowledge_base P w cfg rq)
  = match bedrock_client cfg with
    | None => []
    | Some _ =>
        if not_configured
             (effective_kb_id cfg (SummarizeRequest.knowledge_base_id rq))
        then []
        else [RetrieveAndGenerate
                (effective_kb_id cfg (SummarizeRequest.knowledge_base_id rq))
                (SummarizeRequest.query rq)
                (or_str (SummarizeRequest.model_arn rq) (MODEL_ARN cfg))
                (SummarizeRequest.max_results rq)]
    end.
Proof.
  destruct (bedrock_client cfg) as [client|] eqn:Hc.
  - destruct (not_configured
                (effective_kb_id cfg (SummarizeRequest.knowledge_base_id rq))) eqn:Hk.
    + unfold summarize_with_knowledge_base. rewrite Hc, Hk. reflexivity.
    + rewrite (summarize_with_knowledge_base_run P w cfg client rq Hc Hk).
      reflexivity.
  - unfold summarize_with_knowledge_base. rewrite Hc. reflexivity.
Qed.

(** X1. Whatever the service answers, [POST /search] and [POST /summarize]
    send at most one call: none when the client is missing or the
    identifier is not configured, otherwise exactly the retrieval (resp.
    retrieve-and-generate) for the effective identifier with the query and
    [max_results] of the request (and the effective model). *)
Theorem handlers_send_at_most_one_call
    (P : Pydantic) (w : World) (cfg : Config)
    (rs : SearchRequest.t) (rq : SummarizeRequest.t) :
  fst (search_knowledge_base P w cfg rs)
  = match bedrock_client cfg with
    | None => []
    | Some _ =>
        if not_configured (effective_kb_id cfg (SearchRequest.knowledge_base_id rs))
        then []
        else [Retrieve (effective_kb_id cfg (SearchRequest.knowledge_base_id rs))
                       (SearchRequest.query rs) (SearchRequest.max_results rs)]
    end
  /\ fst (summarize_with_knowledge_base P w cfg rq)
     = match bedrock_client cfg with
       | None => []
       | Some _ =>
           if not_configured
                (effective_kb_id cfg (SummarizeRequest.knowledge_base_id rq))
           then []
           else [RetrieveAndGenerate
                   (effective_kb_id cfg (SummarizeRequest.knowledge_base_id rq))
                   (SummarizeRequest.query rq)
                   (or_str (SummarizeRequest.model_arn rq) (MODEL_ARN cfg))
                   (SummarizeRequest.max_results rq)]
       end.
Proof.
  split.
  - apply search_knowledge_base_calls.
  - apply summarize_with_knowledge_base_calls.
Qed.

Lemma SearchRequest_validate_bounds (P : Pydantic) (body : pyval)
    (request : SearchRequest.t) :
  SearchRequest_validate P body = Some request ->
  1 <= len (SearchRequest.query request) <= 1000
  /\ 1 <= SearchRequest.max_results request <= 20.
Proof.
  intros H. unfold SearchRequest_validate in H.
  destruct body; try discriminate H.
  destruct (str_field P 1 1000 (lookup "query" d)) as [q|] eqn:Hq; [|discriminate H].
  destruct (int_field P 5 1 20 (lookup "max_results" d)) as [n|] eqn:Hn;
    [|discriminate H].
  destruct (optional_str_field P (lookup "knowledge_base_id" d)); [|discriminate H].
  injection H as <-. simpl. split.
  - apply (str_field_bounds _ _ _ _ _ Hq).
  - eapply (int_field_bounds P 5 1 20); [lia | exact Hn].
Qed.

Lemma SummarizeRequest_validate_bounds (P : Pydantic) (body : pyval)
    (request : SummarizeRequest.t) :
  SummarizeRequest_validate P body = Some request ->
  1 <= len (SummarizeRequest.query request) <= 1000
  /\ 1 <= SummarizeRequest.max_results request <= 10.
Proof.
  intros H. unfold SummarizeRequest_validate in H.
  destruct body; try discriminate H.
  destruct (str_field P 1 1000 (lookup "query" d)) as [q|] eqn:Hq; [|discriminate H].
  destruct (int_field P 5 1 10 (lookup "max_results" d)) as [n|] eqn:Hn;
    [|discriminate H].
  destruct (optional_str_field P (lookup "knowledge_base_id" d)); [|discriminate H].
  destruct (optional_str_field P (lookup "model_arn" d)); [|discriminate H].
  injection H as <-. simpl. split.
  - apply (str_field_bounds _ _ _ _ _ Hq).
  - eapply (int_field_bounds P 5 1 10); [lia | exact Hn].
Qed.

(** X2. Whatever the body and whatever pydantic coerces, every call that
    [POST /search] sends asks for 1 to 20 results with a query of 1 to
    1000 characters on a configured knowledge base, and every call that
    [POST /summarize] sends asks for 1 to 10 results; neither route sends
    any other kind of call. *)
Theorem routes_send_only_bounded_calls
    (P : Pydantic) (w : World) (cfg : Config) (body : pyval) :
  Forall search_call (fst (post_search P w cfg body))
  /\ Forall summarize_call (fst (post_summarize P w cfg body)).
Proof.
  split.
  - unfold post_search.
    destruct (SearchRequest_validate P body) as [request|] eqn:Hv; [|constructor].
    pose proof (SearchRequest_validate_bounds P body request Hv) as [Hq Hn].
    rewrite search_knowledge_base_calls.
    destruct (bedrock_client cfg); [|constructor].
    destruct (not_configured _) eqn:Hk; [constructor|].
    constructor; [|constructor]. simpl.
    pose proof (not_configured_false _ Hk) as [H1 H2]. repeat split; tauto || lia.
  - unfold post_summarize.
    destruct (SummarizeRequest_validate P body) as [request|] eqn:Hv; [|constructor].
    pose proof (SummarizeRequest_validate_bounds P body request Hv) as [Hq Hn].
    rewrite summarize_with_knowledge_base_calls.
    destruct (bedrock_client cfg); [|constructor].
    destruct (not_configured _) eqn:Hk; [constructor|].
    constructor; [|constructor]. simpl.
    pose proof (not_configured_false _ Hk) as [H1 H2]. repeat split; tauto || lia.
Qed.

(* ================================================================== *)
(** ** The short model name *)

Lemma last_split_no_sep (sep : ascii) (s : string) :
  contains sep (last_item (split sep s)) = false.
Proof.
  induction s as [|c s IH].
  - reflexivity.
  - rewrite last_split_cons.
    destruct (Ascii.eqb c sep || contains sep s) eqn:E; [exact IH|].
    apply orb_false_elim in E as [Hc Hs]. simpl. rewrite Hc, Hs. reflexivity.
Qed.

Lemma last_split_suffix (sep : ascii) (s : string) :
  contains sep s = true ->
  exists pre, s = pre ++ String sep (last_item (split sep s)).
Proof.
  induction s as [|c s IH]; intros H; [discriminate|].
  rewrite last_split_cons. simpl in H.
  destruct (contains sep s) eqn:Hs.
  - rewrite orb_true_r. destruct (IH eq_refl) as [pre Hpre].
    exists (String c pre). simpl. rewrite <- Hpre. reflexivity.
  - rewrite orb_false_r in H |- *. rewrite H.
    apply Ascii.eqb_eq in H as ->.
    exists "". unfold last_item. rewrite (split_no_sep _ _ Hs). reflexivity.
Qed.

Lemma short_model_name_no_slash (arn : string) :
  contains "/"%char (short_model_name arn) = false.
Proof.
  unfold short_model_name. destruct (contains "/"%char arn) eqn:E.
  - apply last_split_no_sep.
  - exact E.
Qed.

(** X3. For every model identifier, [model_used] has no ['/'] in it; an
    identifier without ['/'] is reported whole, and an identifier with one
    is its prefix, a ['/'] and [model_used]: the reported name is exactly
    what follows the last ['/'] (the empty string when the identifier ends
    in ['/']). *)
Theorem short_model_name_is_last_segment (arn : string) :
  contains "/"%char (short_model_name arn) = false
  /\ (if contains "/"%char arn
      then exists pre, arn = pre ++ "/" ++ short_model_name arn
      else short_model_name arn = arn)
  /\ short_model_name (arn ++ "/") = "".
Proof.
  split; [apply short_model_name_no_slash|]. split.
  - destruct (contains "/"%char arn) eqn:E.
    + unfold short_model_name. rewrite E. apply last_split_suffix, E.
    + unfold short_model_name. rewrite E. reflexivity.
  - apply (short_model_name_after_last_slash arn ""). reflexivity.
Qed.

Lemma append_assoc (a b c : string) : (a ++ b) ++ c = a ++ (b ++ c).
Proof.
  induction a as [|x a IH]; simpl; [reflexivity | now rewrite IH].
Qed.

(** X4. When [MODEL_ARN] is not set in the environment, the default model
    identifier built at start-up has the short name
    ["anthropic.claude-3-sonnet-20240229-v1:0"] whatever the region is,
    also for a region with a ['/'] in it. *)
Theorem default_model_name_ignores_region (w : World) :
  environ w "MODEL_ARN" = None ->
  short_model_name (MODEL_ARN (startup w))
  = "anthropic.claude-3-sonnet-20240229-v1:0".
Proof.
  intros H.
  assert (E : MODEL_ARN (startup w)
              = ("arn:aws:bedrock:" ++ getenv w "AWS_REGION" "us-west-2"
                   ++ "::foundation-model")
                ++ "/" ++ "anthropic.claude-3-sonnet-20240229-v1:0").
  { unfold startup; cbn [MODEL_ARN]. unfold getenv at 1. rewrite H.
    rewrite !append_assoc. reflexivity. }
  rewrite E. apply short_model_name_after_last_slash. reflexivity.
Qed.

Lemma default_model_name_ignores_region_witness :
  short_model_name (MODEL_ARN (startup healthy_world))
  = "anthropic.claude-3-sonnet-20240229-v1:0".
Proof.
  exact (default_model_name_ignores_region healthy_world eq_refl).
Defined.

(* ================================================================== *)
(** ** What the handlers can answer *)

Lemma parse_search_ok (P : Pydantic) (w : World) (request : SearchRequest.t)
    (kb_id : string) (j : pyval) (body : SearchResponse.t) :
  parse_search P w request kb_id j = Ok body ->
  SearchResponse.query body = SearchRequest.query request
  /\ SearchResponse.knowledge_base_id body = kb_id
  /\ SearchResponse.timestamp body = utcnow w
  /\ SearchResponse.total_results body
     = Z.of_nat (List.length (SearchResponse.results body)).
Proof.
  unfold parse_search. intros H.
  destruct (get j "retrievalResults" (PList [])) as [rr|]; simpl in H; [|discriminate].
  destruct (iter rr) as [items|]; simpl in H; [|discriminate].
  destruct (mapM (parse_result P) items) as [rs|]; simpl in H; [|discriminate].
  injection H as <-. repeat split.
Qed.

Lemma parse_summary_ok (P : Pydantic) (w : World) (request : SummarizeRequest.t)
    (kb_id arn : string) (j : pyval) (body : SummarizeResponse.t) :
  parse_summary P w request kb_id arn j = Ok body ->
  SummarizeResponse.query body = SummarizeRequest.query request
  /\ SummarizeResponse.knowledge_base_id body = kb_id
  /\ SummarizeResponse.timestamp body = utcnow w
  /\ SummarizeResponse.model_used body = short_model_name arn.
Proof.
  unfold parse_summary. intros H.
  destruct (get j "output" (PDict [])) as [o|]; simpl in H; [|discriminate].
  destruct (get o "text" (PStr "No response generated")) as [t|]; simpl in H;
    [|discriminate].
  destruct (get j "citations" (PList [])) as [c|]; simpl in H; [|discriminate].
  destruct (iter c) as [groups|]; simpl in H; [|discriminate].
  destruct (mapM (parse_citation P) groups) as [cs|]; simpl in H; [|discriminate].
  unfold SummarizeResponse_init in H.
  destruct (pydantic_str P t); [|discriminate].
  injection H as <-. repeat split.
Qed.

(** X5. The answers of [POST /search], for every configuration, request,
    service and pydantic. It answers 503 exactly when there is no client,
    400 exactly when there is one and the identifier is not configured;
    otherwise a 500 whose detail is ["Search failed: "] followed by the
    message of the exception the normalisation raised, or a body that
    echoes the query, names the effective identifier (never empty, never
    the placeholder), carries the clock's timestamp and whose
    [total_results] is the length of its [results]. *)
Theorem search_answers (P : Pydantic) (w : World) (cfg : Config)
    (request : SearchRequest.t) :
  match snd (search_knowledge_base P w cfg request) with
  | Respond body =>
      bedrock_client cfg <> None
      /\ SearchResponse.query body = SearchRequest.query request
      /\ SearchResponse.knowledge_base_id body
         = effective_kb_id cfg (SearchRequest.knowledge_base_id request)
      /\ SearchResponse.knowledge_base_id body <> ""
      /\ SearchResponse.knowledge_base_id body <> placeholder
      /\ SearchResponse.timestamp body = utcnow w
      /\ SearchResponse.total_results body
         = Z.of_nat (List.length (SearchResponse.results body))
  | HTTPException status_code detail =>
      (status_code = 503 /\ detail = "Bedrock client not available"
       /\ bedrock_client cfg = None)
      \/ (status_code = 400 /\ detail = "Knowledge base ID not configured"
          /\ bedrock_client cfg <> None
          /\ not_configured
               (effective_kb_id cfg (SearchRequest.knowledge_base_id request)) = true)
      \/ (status_code = 500
          /\ bedrock_client cfg <> None
          /\ not_configured
               (effective_kb_id cfg (SearchRequest.knowledge_base_id request)) = false
          /\ exists e,
               parse_search P w request
                 (effective_kb_id cfg (SearchRequest.knowledge_base_id request))
                 (answer_or_empty
                    (aws w (Retrieve
                              (effective_kb_id cfg
                                 (SearchRequest.knowledge_base_id request))
                              (SearchRequest.query request)
                              (SearchRequest.max_results request))))
               = Raise e
               /\ detail = "Search failed: " ++ exc_msg e)
  | Unprocessable => False
  end.
Proof.
  destruct (bedrock_client cfg) as [client|] eqn:Hc.
  - destruct (not_configured
                (effective_kb_id cfg (SearchRequest.knowledge_base_id request))) eqn:Hk.
    + unfold search_knowledge_base. rewrite Hc, Hk. simpl.
      right; left. repeat split. discriminate.
    + rewrite (search_knowledge_base_run P w cfg client request Hc Hk). simpl.
      fold (answer_or_empty
              (aws w (Retrieve
                        (effective_kb_id cfg (SearchRequest.knowledge_base_id request))
                        (SearchRequest.query request)
                        (SearchRequest.max_results request)))).
      destruct (parse_search P w request _ _) as [body|e] eqn:Hp.
      * destruct (parse_search_ok _ _ _ _ _ _ Hp) as (Hq & Hid & Ht & Hn).
        destruct (not_configured_false _ Hk) as [H1 H2].
        rewrite Hid. repeat split; try assumption. discriminate.
      * right; right. repeat split; [discriminate|]. eauto.
  - unfold search_knowledge_base. rewrite Hc. simpl. left. repeat split.
Qed.

(** X6. The answers of [POST /summarize]: 503 exactly when there is no
    client, 400 exactly when there is one and the identifier is not
    configured; otherwise a 500 whose detail is ["Summarization failed: "]
    followed by the message of the exception the normalisation raised, or
    a body that echoes the query, names the effective identifier (never
    empty, never the placeholder), carries the clock's timestamp and
    reports as [model_used] the short name, free of ['/'], of the model
    override of the request or else of the configured model. *)
Theorem summarize_answers (P : Pydantic) (w : World) (cfg : Config)
    (request : SummarizeRequest.t) :
  match snd (summarize_with_knowledge_base P w cfg request) with
  | Respond body =>
      bedrock_client cfg <> None
      /\ SummarizeResponse.query body = SummarizeRequest.query request
      /\ SummarizeResponse.knowledge_base_id body
         = effective_kb_id cfg (SummarizeRequest.knowledge_base_id request)
      /\ SummarizeResponse.knowledge_base_id body <> ""
      /\ SummarizeResponse.knowledge_base_id body <> placeholder
      /\ SummarizeResponse.timestamp body = utcnow w
      /\ SummarizeResponse.model_used body
         = short_model_name
             (or_str (SummarizeRequest.model_arn request) (MODEL_ARN cfg))
      /\ contains "/"%char (SummarizeResponse.model_used body) = false
  | HTTPException status_code detail =>
      (status_code = 503 /\ detail = "Bedrock client not available"
       /\ bedrock_client cfg = None)
      \/ (status_code = 400 /\ detail = "Knowledge base ID not configured"
          /\ bedrock_client cfg <> None
          /\ not_configured
               (effective_kb_id cfg (SummarizeRequest.knowledge_base_id request))
             = true)
      \/ (status_code = 500
          /\ bedrock_client cfg <> None
          /\ not_configured
               (effective_kb_id cfg (SummarizeRequest.knowledge_base_id request))
             = false
          /\ exists e,
               parse_summary P w request
                 (effective_kb_id cfg (SummarizeRequest.knowledge_base_id request))
                 (or_str (SummarizeRequest.model_arn request) (MODEL_ARN cfg))
                 (answer_or_empty
                    (aws w (RetrieveAndGenerate
                              (effective_kb_id cfg
                                 (SummarizeRequest.knowledge_base_id request))
                              (SummarizeRequest.query request)
                              (or_str (SummarizeRequest.model_arn request)
                                      (MODEL_ARN cfg))
                              (SummarizeRequest.max_results request))))
               = Raise e
               /\ detail = "Summarization failed: " ++ exc_msg e)
  | Unprocessable => False
  end.
Proof.
  destruct (bedrock_client cfg) as [client|] eqn:Hc.
  - destruct (not_configured
                (effective_kb_id cfg (SummarizeRequest.knowledge_base_id request)))
      eqn:Hk.
    + unfold summarize_with_knowledge_base. rewrite Hc, Hk. simpl.
      right; left. repeat split. discriminate.
    + rewrite (summarize_with_knowledge_base_run P w cfg client request Hc Hk). simpl.
      fold (answer_or_empty
              (aws w (RetrieveAndGenerate
                        (effective_kb_id cfg
                           (SummarizeRequest.knowledge_base_id request))
                        (SummarizeRequest.query request)
                        (or_str (SummarizeRequest.model_arn request) (MODEL_ARN cfg))
                        (SummarizeRequest.max_results request)))).
      destruct (parse_summary P w request _ _ _) as [body|e] eqn:Hp.
      * destruct (parse_summary_ok _ _ _ _ _ _ _ Hp) as (Hq & Hid & Ht & Hm).
        destruct (not_configured_false _ Hk) as [H1 H2].
        rewrite Hid, Hm. repeat split; try assumption; try discriminate.
        apply short_model_name_no_slash.
      * right; right. repeat split; [discriminate|]. eauto.
  - unfold summarize_with_knowledge_base. rewrite Hc. simpl. left. repeat split.
Qed.

(* ================================================================== *)
(** ** Start-up and the missing client *)

(** X7. After start-up the client is there exactly when both
    [boto3.client] constructions, for ["bedrock-agent-runtime"] and for
    ["bedrock-agent"], return in the configured region, and it is then
    the client of that region. *)
Theorem startup_client (w : World) (c : BedrockKnowledgeBaseClient) :
  bedrock_client (startup w) = Some c <->
  boto3_client w "bedrock-agent-runtime" (AWS_REGION (startup w)) = Ok tt
  /\ boto3_client w "bedrock-agent" (AWS_REGION (startup w)) = Ok tt
  /\ c = {| region_name := AWS_REGION (startup w) |}.
Proof.
  unfold startup, BedrockKnowledgeBaseClient_init; cbn [bedrock_client AWS_REGION].
  set (region := getenv w "AWS_REGION" "us-west-2").
  destruct (boto3_client w "bedrock-agent-runtime" region) as [[]|e1]; simpl.
  - destruct (boto3_client w "bedrock-agent" region) as [[]|e2]; simpl.
    + split.
      * intros [= <-]. repeat split.
      * intros (_ & _ & ->). reflexivity.
    + split; [discriminate|]. intros (_ & H & _). discriminate H.
  - split; [discriminate|]. intros (H & _). discriminate H.
Qed.

(** X8. When one of the two [boto3.client] constructions raises at
    start-up, every data endpoint answers 503 without sending anything,
    whatever the request, while [GET /health] still answers, with
    [bedrock_available] false. *)
Theorem failed_construction_is_503
    (P : Pydantic) (w : World) (get_knowledge_base : string -> outcome pyval)
    (rs : SearchRequest.t) (rq : SummarizeRequest.t) (id : string) (e : pyexc) :
  boto3_client w "bedrock-agent-runtime" (getenv w "AWS_REGION" "us-west-2") = Raise e
  \/ boto3_client w "bedrock-agent" (getenv w "AWS_REGION" "us-west-2") = Raise e ->
  list_knowledge_bases P w (startup w)
  = ([], HTTPException 503 "Bedrock client not available")
  /\ search_knowledge_base P w (startup w) rs
     = ([], HTTPException 503 "Bedrock client not available")
  /\ summarize_with_knowledge_base P w (startup w) rq
     = ([], HTTPException 503 "Bedrock client not available")
  /\ get_knowledge_base_info get_knowledge_base (startup w) id
     = ([], HTTPException 503 "Bedrock client not available")
  /\ exists body,
       health_check w (startup w) = ([], Respond body)
       /\ HealthResponse.bedrock_available body = false.
Proof.
  intros H.
  assert (Hc : bedrock_client (startup w) = None).
  { unfold startup, BedrockKnowledgeBaseClient_init; cbn [bedrock_client].
    destruct H as [H|H].
    - rewrite H. reflexivity.
    - destruct (boto3_client w "bedrock-agent-runtime" _) as [[]|]; simpl;
        [rewrite H|]; reflexivity. }
  unfold list_knowledge_bases, search_knowledge_base,
    summarize_with_knowledge_base, get_knowledge_base_info, health_check.
  rewrite Hc. repeat split. eexists. split; reflexivity.
Qed.

Lemma failed_construction_is_503_witness :
  search_knowledge_base strict unavailable_world (startup unavailable_world)
    sample_search
  = ([], HTTPException 503 "Bedrock client not available")
  /\ get_knowledge_base_info kb_lookup_finds (startup unavailable_world) "KB1"
     = ([], HTTPException 503 "Bedrock client not available").
Proof.
  destruct (failed_construction_is_503 strict unavailable_world kb_lookup_finds
              sample_search sample_summarize "KB1" sample_exc
              (or_introl eq_refl)) as (_ & Hs & _ & Hg & _).
  exact (conj Hs Hg).
Defined.

(* ================================================================== *)
(** ** Validation of the request bodies *)

Lemma leb_true (a b : Z) : a <= b -> (a <=? b) = true.
Proof.
  apply Z.leb_le.
Qed.

(** X9. [POST /summarize] lets a body through only with a query of 1 to
    1000 characters and [max_results] between 1 and 10: a body asking for
    11 to 20 results is accepted by [POST /search] and rejected by
    [POST /summarize], without a call; a body within the bounds is
    accepted, with no override of the identifier or of the model. *)
Theorem summarize_request_validation (P : Pydantic) (w : World) (cfg : Config) :
  PydanticLaws P ->
  (forall body request,
      SummarizeRequest_validate P body = Some request ->
      1 <= len (SummarizeRequest.query request) <= 1000
      /\ 1 <= SummarizeRequest.max_results request <= 10)
  /\ (forall q n,
         1 <= len q <= 1000 -> 10 < n <= 20 ->
         SearchRequest_validate P (PDict [("query", PStr q); ("max_results", PInt n)])
         = Some {| SearchRequest.query := q;
                   SearchRequest.max_results := n;
                   SearchRequest.knowledge_base_id := None |}
         /\ post_summarize P w cfg (PDict [("query", PStr q); ("max_results", PInt n)])
            = ([], Unprocessable))
  /\ (forall q n,
         1 <= len q <= 1000 -> 1 <= n <= 10 ->
         SummarizeRequest_validate P
           (PDict [("query", PStr q); ("max_results", PInt n)])
         = Some {| SummarizeRequest.query := q;
                   SummarizeRequest.max_results := n;
                   SummarizeRequest.knowledge_base_id := None;
                   SummarizeRequest.model_arn := None |}).
Proof.
  intros laws. split; [|split].
  - apply SummarizeRequest_validate_bounds.
  - intros q n Hq Hn. split.
    + unfold SearchRequest_validate, str_field, int_field; simpl.
      rewrite (str_kept _ laws), (int_kept _ laws).
      rewrite !leb_true by lia. reflexivity.
    + unfold post_summarize, SummarizeRequest_validate, str_field, int_field; simpl.
      rewrite (str_kept _ laws), (int_kept _ laws).
      rewrite !leb_true by lia.
      replace (n <=? 10) with false by (symmetry; apply Z.leb_gt; lia).
      reflexivity.
  - intros q n Hq Hn.
    unfold SummarizeRequest_validate, str_field, int_field; simpl.
    rewrite (str_kept _ laws), (int_kept _ laws).
    rewrite !leb_true by lia. reflexivity.
Qed.

Lemma summarize_request_validation_witness :
  SearchRequest_validate strict
    (PDict [("query", PStr "what is this"); ("max_results", PInt 11)])
  = Some {| SearchRequest.query := "what is this";
            SearchRequest.max_results := 11;
            SearchRequest.knowledge_base_id := None |}
  /\ post_summarize strict healthy_world (startup healthy_world)
       (PDict [("query", PStr "what is this"); ("max_results", PInt 11)])
     = ([], Unprocessable).
Proof.
  destruct (summarize_request_validation strict healthy_world
              (startup healthy_world) strict_laws) as (_ & H & _).
  apply (H "what is this" 11); [cbv; split; discriminate | lia].
Defined.

(** X10. The query is required and the other fields have defaults: a body
    that is not an object, or has no query, is rejected by both routes
    without a call, whatever pydantic coerces; a body with only a query
    of 1 to 1000 characters is accepted with [max_results] 5 and no
    override, and for both request models, whatever the other fields, a
    [knowledge_base_id] of [null] is the same as none (and so is a
    [model_arn] of [null] for [SummarizeRequest]). *)
Theorem request_defaults_and_required_query
    (P : Pydantic) (w : World) (cfg : Config) :
  PydanticLaws P ->
  (forall fields,
      lookup "query" fields = None ->
      post_search P w cfg (PDict fields) = ([], Unprocessable)
      /\ post_summarize P w cfg (PDict fields) = ([], Unprocessable))
  /\ (forall body,
         is_dict body = false ->
         post_search P w cfg body = ([], Unprocessable)
         /\ post_summarize P w cfg body = ([], Unprocessable))
  /\ (forall q,
         1 <= len q <= 1000 ->
         SearchRequest_validate P (PDict [("query", PStr q)])
         = Some {| SearchRequest.query := q;
                   SearchRequest.max_results := 5;
                   SearchRequest.knowledge_base_id := None |}
         /\ SummarizeRequest_validate P (PDict [("query", PStr q)])
            = Some {| SummarizeRequest.query := q;
                      SummarizeRequest.max_results := 5;
                      SummarizeRequest.knowledge_base_id := None;
                      SummarizeRequest.model_arn := None |}
         /\ SearchRequest_validate P
              (PDict [("query", PStr q); ("knowledge_base_id", PNone)])
            = SearchRequest_validate P (PDict [("query", PStr q)])
         /\ SummarizeRequest_validate P
              (PDict [("query", PStr q); ("knowledge_base_id", PNone)])
            = SummarizeRequest_validate P (PDict [("query", PStr q)]))
  /\ (forall fields,
         lookup "knowledge_base_id" fields = None ->
         SearchRequest_validate P (PDict (("knowledge_base_id", PNone) :: fields))
         = SearchRequest_validate P (PDict fields)
         /\ SummarizeRequest_validate P
              (PDict (("knowledge_base_id", PNone) :: fields))
            = SummarizeRequest_validate P (PDict fields))
  /\ (forall fields,
         lookup "model_arn" fields = None ->
         SummarizeRequest_validate P (PDict (("model_arn", PNone) :: fields))
         = SummarizeRequest_validate P (PDict fields)).
Proof.
  intros laws. split; [|split; [|split; [|split]]].
  - intros fields H.
    unfold post_search, post_summarize, SearchRequest_validate,
      SummarizeRequest_validate, str_field.
    rewrite H. split; reflexivity.
  - intros body H. destruct body; try discriminate H; split; reflexivity.
  - intros q Hq.
    unfold SearchRequest_validate, SummarizeRequest_validate, str_field; simpl.
    rewrite (str_kept _ laws). rewrite !leb_true by lia.
    repeat split.
  - intros fields H.
    unfold SearchRequest_validate, SummarizeRequest_validate, optional_str_field;
      cbn [lookup String.eqb Ascii.eqb Bool.eqb].
    rewrite H. split; reflexivity.
  - intros fields H.
    unfold SummarizeRequest_validate, optional_str_field;
      cbn [lookup String.eqb Ascii.eqb Bool.eqb].
    rewrite H. reflexivity.
Qed.

Lemma request_defaults_and_required_query_witness :
  post_search strict healthy_world (startup healthy_world)
    (PDict [("max_results", PInt 5)]) = ([], Unprocessable)
  /\ SearchRequest_validate strict (PDict [("query", PStr "what is this")])
     = Some sample_search
  /\ SummarizeRequest_validate strict
       (PDict [("knowledge_base_id", PNone); ("query", PStr "what is this")])
     = Some sample_summarize.
Proof.
  destruct (request_defaults_and_required_query strict healthy_world
              (startup healthy_world) strict_laws) as (Hreq & _ & Hdef & Hnull & _).
  split; [|split].
  - exact (proj1 (Hreq [("max_results", PInt 5)] eq_refl)).
  - apply (Hdef "what is this"); cbv; split; discriminate.
  - rewrite (proj2 (Hnull [("query", PStr "what is this")] eq_refl)).
    apply (Hdef "what is this"); cbv; split; discriminate.
Defined.

(* ================================================================== *)
(** ** [GET /knowledge-bases] *)

Lemma parse_kb_normalized (P : Pydantic) (kb : pyval) :
  PydanticLaws P ->
  summary_shape kb = true ->
  parse_kb P kb = Ok (normalized_kb kb).
Proof.
  intros laws H. unfold summary_shape in H.
  unfold parse_kb, normalized_kb, str_at, path, get, KnowledgeBaseInfo_init,
    pydantic_optional_str.
  repeat shape_step; validate laws; reflexivity.
Qed.

Lemma client_list_knowledge_bases_run (w : World) (self : BedrockKnowledgeBaseClient) :
  client_list_knowledge_bases w self
  = ([ListKnowledgeBases],
     Ok (match aws w ListKnowledgeBases with
         | Ok (PDict d) => get_or d "knowledgeBaseSummaries" (PList [])
         | _ => PList []
         end)).
Proof.
  unfold client_list_knowledge_bases, invoke, get_or; simpl.
  destruct (aws w ListKnowledgeBases) as [j|e]; [|reflexivity].
  destruct j; reflexivity.
Qed.

(** X11. When the service answers the list call with a document of its
    shape, [GET /knowledge-bases] returns one entry per summary, in the
    order of the answer; an entry takes the identifier, name, description
    and status of its summary, with [""], ["Unnamed"], no description and
    ["Unknown"] for the ones that are absent. *)
Theorem list_knowledge_bases_one_entry_per_summary
    (P : Pydantic) (w : World) (cfg : Config) (client : BedrockKnowledgeBaseClient)
    (answer : pyval) :
  PydanticLaws P ->
  bedrock_client cfg = Some client ->
  aws w ListKnowledgeBases = Ok answer ->
  list_response_shape answer = true ->
  list_knowledge_bases P w cfg
  = ([ListKnowledgeBases],
     Respond (map normalized_kb (list_at answer ["knowledgeBaseSummaries"]))).
Proof.
  intros laws Hc Ha Hshape. unfold list_knowledge_bases.
  rewrite Hc, client_list_knowledge_bases_run, Ha.
  unfold list_response_shape in Hshape.
  destruct answer; try discriminate Hshape. cbn [dict_with] in Hshape.
  unfold list_at, path, get_or, optional in *.
  destruct (lookup "knowledgeBaseSummaries" d) as [v|]; [|reflexivity].
  destruct v; try discriminate Hshape. cbn [list_of] in Hshape.
  unfold bind, lift, guarded; simpl.
  rewrite (mapM_map _ normalized_kb); [reflexivity|].
  intros x Hx. apply parse_kb_normalized; [exact laws|].
  apply (forallb_In _ _ _ Hshape Hx).
Qed.

Lemma list_knowledge_bases_one_entry_per_summary_witness :
  list_knowledge_bases strict listing_world (startup listing_world)
  = ([ListKnowledgeBases],
     Respond [ {| KnowledgeBaseInfo.knowledge_base_id := "KB1";
                  KnowledgeBaseInfo.name := "docs";
                  KnowledgeBaseInfo.description := Some "product documents";
                  KnowledgeBaseInfo.status := "ACTIVE" |};
               {| KnowledgeBaseInfo.knowledge_base_id := "KB2";
                  KnowledgeBaseInfo.name := "Unnamed";
                  KnowledgeBaseInfo.description := None;
                  KnowledgeBaseInfo.status := "Unknown" |} ]).
Proof.
  exact (list_knowledge_bases_one_entry_per_summary strict listing_world
           (startup listing_world) sample_client two_summaries
           strict_laws eq_refl eq_refl eq_refl).
Defined.

(** X12. An answer to the list call that is not a document, or that has
    no [knowledgeBaseSummaries], is answered as a success with the empty
    list, whatever pydantic does: the wrapper turns it into [[]]. *)
Theorem list_knowledge_bases_without_summaries
    (P : Pydantic) (w : World) (cfg : Config) (client : BedrockKnowledgeBaseClient)
    (answer : pyval) :
  bedrock_client cfg = Some client ->
  aws w ListKnowledgeBases = Ok answer ->
  path answer ["knowledgeBaseSummaries"] = None ->
  list_knowledge_bases P w cfg = ([ListKnowledgeBases], Respond []).
Proof.
  intros Hc Ha Hp. unfold list_knowledge_bases.
  rewrite Hc, client_list_knowledge_bases_run, Ha.
  unfold path, get_or in *.
  destruct answer; try reflexivity.
  destruct (lookup "knowledgeBaseSummaries" d); [discriminate Hp | reflexivity].
Qed.

Lemma list_knowledge_bases_without_summaries_witness :
  list_knowledge_bases strict list_world (startup list_world)
  = ([ListKnowledgeBases], Respond []).
Proof.
  exact (list_knowledge_bases_without_summaries strict list_world
           (startup list_world) sample_client (PList []) eq_refl eq_refl eq_refl).
Defined.

(* ================================================================== *)
(** ** [GET /knowledge-bases/{knowledge_base_id}] *)

Section KnowledgeBaseInfoAnswers.

Variable get_knowledge_base : string -> outcome pyval.
Variable cfg : Config.
Variable client : BedrockKnowledgeBaseClient.
Hypothesis available : bedrock_client cfg = Some client.

Lemma get_knowledge_base_info_run (id : string) :
  get_knowledge_base_info get_knowledge_base cfg id
  = ([id],
     match get_knowledge_base id with
     | Ok (PDict d) =>
         match lookup "knowledgeBase" d with
         | Some kb =>
             if negb (truthy kb) then HTTPException 404 "Knowledge base not found"
             else match kb_info_document id kb with
                  | Ok document => Respond document
                  | Raise e =>
                      HTTPException 500
                        ("Failed to get knowledge base info: " ++ exc_msg e)
                  end
         | None => HTTPException 404 "Knowledge base not found"
         end
     | _ => HTTPException 404 "Knowledge base not found"
     end).
Proof.
  unfold get_knowledge_base_info, client_get_knowledge_base_info.
  rewrite available.
  destruct (get_knowledge_base id) as [j|e]; [|reflexivity].
  destruct j; try reflexivity. simpl.
  destruct (lookup "knowledgeBase" d) as [kb|]; [|reflexivity].
  destruct (negb (truthy kb)); [reflexivity|].
  destruct (kb_info_document id kb); reflexivity.
Qed.

End KnowledgeBaseInfoAnswers.

(** X13. With the client available, [GET /knowledge-bases/{id}] asks the
    service once, for the identifier of the path as it is, and answers 404
    "Knowledge base not found" when the lookup raises (whatever the
    exception), when its answer has no [knowledgeBase], and when that
    value is falsy: an upstream failure is never answered as a 500. *)
Theorem knowledge_base_lookup_failure_is_404
    (get_knowledge_base : string -> outcome pyval) (cfg : Config)
    (client : BedrockKnowledgeBaseClient) (id : string) :
  bedrock_client cfg = Some client ->
  (forall e,
      get_knowledge_base id = Raise e ->
      get_knowledge_base_info get_knowledge_base cfg id
      = ([id], HTTPException 404 "Knowledge base not found"))
  /\ (forall answer,
         get_knowledge_base id = Ok answer ->
         path answer ["knowledgeBase"] = None ->
         get_knowledge_base_info get_knowledge_base cfg id
         = ([id], HTTPException 404 "Knowledge base not found"))
  /\ (forall answer kb,
         get_knowledge_base id = Ok answer ->
         path answer ["knowledgeBase"] = Some kb ->
         truthy kb = false ->
         get_knowledge_base_info get_knowledge_base cfg id
         = ([id], HTTPException 404 "Knowledge base not found")).
Proof.
  intros Hc. split; [|split].
  - intros e He. rewrite (get_knowledge_base_info_run _ _ _ Hc), He. reflexivity.
  - intros answer Ha Hp. rewrite (get_knowledge_base_info_run _ _ _ Hc), Ha.
    unfold path in Hp. destruct answer; try reflexivity.
    destruct (lookup "knowledgeBase" d); [discriminate Hp | reflexivity].
  - intros answer kb Ha Hp Ht. rewrite (get_knowledge_base_info_run _ _ _ Hc), Ha.
    unfold path in Hp. destruct answer; try discriminate Hp.
    destruct (lookup "knowledgeBase" d) as [v|]; [|discriminate Hp].
    injection Hp as ->. rewrite Ht. reflexivity.
Qed.

Lemma knowledge_base_lookup_failure_is_404_witness :
  get_knowledge_base_info kb_lookup_fails (startup healthy_world) placeholder
  = ([placeholder], HTTPException 404 "Knowledge base not found").
Proof.
  exact (proj1 (knowledge_base_lookup_failure_is_404 kb_lookup_fails
                  (startup healthy_world) sample_client placeholder eq_refl)
           sample_exc eq_refl).
Defined.

(** X14. With the client available, when the lookup answers a non-empty
    [knowledgeBase] document, [GET /knowledge-bases/{id}] returns eight
    items: the identifier of the path, then the name, description and
    status of the document, ["Unknown"], ["No description"] and
    ["Unknown"] when absent, its [createdAt], [updatedAt] and [roleArn],
    [None] when absent, and its configuration, the empty dict when
    absent. *)
Theorem knowledge_base_document_fields
    (get_knowledge_base : string -> outcome pyval) (cfg : Config)
    (client : BedrockKnowledgeBaseClient) (id : string)
    (answer : pyval) (item : string * pyval) (info : dict) :
  bedrock_client cfg = Some client ->
  get_knowledge_base id = Ok answer ->
  path answer ["knowledgeBase"] = Some (PDict (item :: info)) ->
  get_knowledge_base_info get_knowledge_base cfg id
  = ([id],
     Respond
       (PDict
          [("knowledge_base_id", PStr id);
           ("name", get_or (item :: info) "name" (PStr "Unknown"));
           ("description",
            get_or (item :: info) "description" (PStr "No description"));
           ("status", get_or (item :: info) "status" (PStr "Unknown"));
           ("created_at", get_or (item :: info) "createdAt" PNone);
           ("updated_at", get_or (item :: info) "updatedAt" PNone);
           ("role_arn", get_or (item :: info) "roleArn" PNone);
           ("knowledge_base_configuration",
            get_or (item :: info) "knowledgeBaseConfiguration" (PDict []))])).
Proof.
  intros Hc Ha Hp. rewrite (get_knowledge_base_info_run _ _ _ Hc), Ha.
  unfold path in Hp. destruct answer; try discriminate Hp.
  destruct (lookup "knowledgeBase" d) as [v|]; [|discriminate Hp].
  injection Hp as ->. reflexivity.
Qed.

Lemma knowledge_base_document_fields_witness :
  get_knowledge_base_info kb_lookup_finds (startup healthy_world) "KB1"
  = ([ "KB1" ],
     Respond
       (PDict
          [("knowledge_base_id", PStr "KB1");
           ("name", PStr "docs");
           ("description", PStr "No description");
           ("status", PStr "ACTIVE");
           ("created_at", PNone);
           ("updated_at", PNone);
           ("role_arn", PNone);
           ("knowledge_base_configuration", PDict [])])).
Proof.
  exact (knowledge_base_document_fields kb_lookup_finds (startup healthy_world)
           sample_client "KB1" _ _ _ eq_refl eq_refl eq_refl).
Defined.

(** X15. With the client available, the only 500 of
    [GET /knowledge-bases/{id}] comes from a [knowledgeBase] value that is
    truthy and not a dict: its detail is ["Failed to get knowledge base
    info: "] followed by the message of the [AttributeError]. *)
Theorem knowledge_base_odd_document_is_500
    (get_knowledge_base : string -> outcome pyval) (cfg : Config)
    (client : BedrockKnowledgeBaseClient) (id : string) :
  bedrock_client cfg = Some client ->
  (forall answer kb,
      get_knowledge_base id = Ok answer ->
      path answer ["knowledgeBase"] = Some kb ->
      truthy kb = true -> is_dict kb = false ->
      get_knowledge_base_info get_knowledge_base cfg id
      = ([id],
         HTTPException 500
           ("Failed to get knowledge base info: '" ++ type_name kb
              ++ "' object has no attribute 'get'")))
  /\ (forall detail,
         snd (get_knowledge_base_info get_knowledge_base cfg id)
         = HTTPException 500 detail ->
         exists answer kb,
           get_knowledge_base id = Ok answer
           /\ path answer ["knowledgeBase"] = Some kb
           /\ truthy kb = true /\ is_dict kb = false).
Proof.
  intros Hc. split.
  - intros answer kb Ha Hp Ht Hd. rewrite (get_knowledge_base_info_run _ _ _ Hc), Ha.
    unfold path in Hp. destruct answer; try discriminate Hp.
    destruct (lookup "knowledgeBase" d) as [v|]; [|discriminate Hp].
    injection Hp as ->. rewrite Ht.
    destruct kb; try discriminate Hd; reflexivity.
  - intros detail H. rewrite (get_knowledge_base_info_run _ _ _ Hc) in H.
    cbn [snd] in H.
    destruct (get_knowledge_base id) as [answer|e] eqn:Hg; [|discriminate H].
    destruct answer; try discriminate H.
    destruct (lookup "knowledgeBase" d) as [kb|] eqn:Hl; [|discriminate H].
    destruct (truthy kb) eqn:Ht; cbn [negb] in H; [|discriminate H].
    exists (PDict d), kb. split; [reflexivity|].
    split; [cbn [path]; rewrite Hl; reflexivity|]. split; [exact Ht|].
    destruct kb; try reflexivity. discriminate H.
Qed.

Lemma knowledge_base_odd_document_is_500_witness :
  get_knowledge_base_info kb_lookup_odd (startup healthy_world) "KB1"
  = ([ "KB1" ],
     HTTPException 500
       "Failed to get knowledge base info: 'str' object has no attribute 'get'").
Proof.
  exact (proj1 (knowledge_base_odd_document_is_500 kb_lookup_odd
                  (startup healthy_world) sample_client "KB1" eq_refl)
           _ (PStr "docs") eq_refl eq_refl eq_refl eq_refl).
Defined.

(* ================================================================== *)
(** ** Fields that are present *)

(** X16. A field that a retrieval record does have is passed through
    unchanged: the nested text becomes the content, the score stays the
    same float, and the metadata dict is handed over item for item (the
    empty dict when there is none). *)
Theorem present_fields_pass_through (P : Pydantic) (record : pyval) :
  PydanticLaws P ->
  retrieval_result_shape record = true ->
  exists result,
    parse_result P record = Ok result
    /\ (forall text,
          path record ["content"; "text"] = Some (PStr text) ->
          SearchResult.content result = text)
    /\ (forall f,
          path record ["score"] = Some (PFloat f) -> SearchResult.score result = f)
    /\ (forall items,
          path record ["metadata"] = Some (PDict items) ->
          SearchResult.metadata result = items)
    /\ (path record ["metadata"] = None -> SearchResult.metadata result = []).
Proof.
  intros laws Hshape. exists (normalized_result record).
  split; [apply parse_result_normalized; assumption|].
  unfold normalized_result, str_at, float_at, dict_at; cbn [SearchResult.content
    SearchResult.score SearchResult.metadata].
  repeat split; intros; match goal with H : path _ _ = _ |- _ => rewrite H end;
    reflexivity.
Qed.

Lemma present_fields_pass_through_witness :
  exists result,
    parse_result strict full_record = Ok result
    /\ SearchResult.content result = "alpha"
    /\ SearchResult.score result = 0.75%float
    /\ SearchResult.metadata result = [("page", PInt 3)].
Proof.
  destruct (present_fields_pass_through strict full_record strict_laws eq_refl)
    as (result & Hr & Hc & Hs & Hm & _).
  exists result.
  exact (conj Hr (conj (Hc _ eq_refl) (conj (Hs _ eq_refl) (Hm _ eq_refl)))).
Defined.

(** X17. A citation has a source location exactly when the location of
    its reference has type ["S3"]: it is then the nested URI, or
    ["Unknown S3 location"] when there is none; a reference without a
    location, with an empty one, or with one of another type gives a
    citation without source location. *)
Theorem citation_location_follows_kind (P : Pydantic) (reference : pyval) :
  PydanticLaws P ->
  reference_shape reference = true ->
  exists citation,
    parse_reference P reference = Ok citation
    /\ (path reference ["location"; "type"] = Some (PStr "S3") ->
        Citation.source_location citation
        = Some (str_at reference ["location"; "s3Location"; "uri"]
                  "Unknown S3 location"))
    /\ (path reference ["location"; "type"] <> Some (PStr "S3") ->
        Citation.source_location citation = None).
Proof.
  intros laws Hshape. exists (normalized_citation reference).
  split; [apply parse_reference_normalized; assumption|].
  unfold normalized_citation; cbn [Citation.source_location].
  assert (Hk : str_at reference ["location"; "type"] "" = "S3"
               <-> path reference ["location"; "type"] = Some (PStr "S3")).
  { unfold str_at.
    destruct (path reference ["location"; "type"]) as [v|]; [destruct v|];
      split; intros H; try discriminate H;
      try (injection H as ->); subst; reflexivity. }
  split; intros H.
  - rewrite (proj2 Hk H). reflexivity.
  - destruct (String.eqb_spec (str_at reference ["location"; "type"] "") "S3")
      as [E|E]; [apply Hk in E; contradiction | reflexivity].
Qed.

Lemma citation_location_follows_kind_witness :
  (exists citation,
      parse_reference strict ref_one = Ok citation
      /\ Citation.source_location citation = Some "s3://bucket/one")
  /\ (exists citation,
         parse_reference strict ref_two = Ok citation
         /\ Citation.source_location citation = None).
Proof.
  split.
  - destruct (citation_location_follows_kind strict ref_one strict_laws eq_refl)
      as (citation & Hc & Hs3 & _).
    exists citation. exact (conj Hc (Hs3 eq_refl)).
  - destruct (citation_location_follows_kind strict ref_two strict_laws eq_refl)
      as (citation & Hc & _ & Hother).
    exists citation. refine (conj Hc (Hother _)). discriminate.
Defined.
